(** * TriFinger simulation: the robot connector and the platform facade

    A shallow embedding of [python/trifinger_simulation/base_finger.py] and
    [python/trifinger_simulation/trifinger_platform.py].

    Python objects become records, methods become functions in a small
    state-and-exception monad, Python [float]s are IEEE binary64 values
    ([PrimFloat.float]), Python [int]s are [Z].  Modules of the package that
    the two files only call into ([sim_finger], [finger_types_data],
    [camera], [collision_objects], [tasks.move_cube]) and third-party
    libraries ([pybullet], [numpy], [rospkg], [os.path], [pinocchio_utils])
    appear as interfaces (type classes) whose operations are parameters. *)

From Stdlib Require Import ZArith List String Bool Lia.
From Stdlib Require Import Floats.PrimFloat.
From stdpp Require Import base option list strings gmap.
Import ListNotations.

Set Warnings "-register-all,-inexact-float".
Local Open Scope string_scope.

(** ** Python values, exceptions and the method monad *)

Module Py.

(** The exceptions the two files raise or let through. *)
Inductive exn : Type :=
| ValueError (msg : string)
| RuntimeError (msg : string)
| AttributeError (attribute : string)
| IndexError (msg : string)
| OSError (path : string)
| PybulletError (msg : string).

Inductive result (A : Type) : Type :=
| Ok (a : A)
| Raise (e : exn).
Arguments Ok {A} a.
Arguments Raise {A} e.

Definition is_ok {A} (r : result A) : bool :=
  match r with Ok _ => true | Raise _ => false end.

(** A method call runs on a state and leaves a state behind also when it
    raises: whatever it assigned before the [raise] stays assigned. *)
Definition M (St A : Type) : Type := St -> result A * St.

Definition ret {St A} (a : A) : M St A := fun s => (Ok a, s).

Definition bind {St A B} (c : M St A) (k : A -> M St B) : M St B :=
  fun s => match c s with
           | (Ok a, s') => k a s'
           | (Raise e, s') => (Raise e, s')
           end.

Definition raise {St A} (e : exn) : M St A := fun s => (Raise e, s).

Definition gets {St A} (f : St -> A) : M St A := fun s => (Ok (f s), s).

Definition modify {St} (f : St -> St) : M St unit := fun s => (Ok tt, f s).

(** A pure computation that may raise, run inside a method. *)
Definition lift {St A} (r : result A) : M St A := fun s => (r, s).

(** [try: c except Exception: h] *)
Definition try_except {St A} (c : M St A) (h : exn -> M St A) : M St A :=
  fun s => match c s with
           | (Ok a, s') => (Ok a, s')
           | (Raise e, s') => h e s'
           end.

(** [enumerate(xs)] *)
Definition enumerate {A} (xs : list A) : list (nat * A) :=
  zip (seq 0 (length xs)) xs.

End Py.

Import Py.

Declare Scope py_scope.
Delimit Scope py_scope with py.
Notation "x <- c ;; k" := (bind c (fun x => k))
  (at level 100, c at next level, right associativity) : py_scope.
Notation "c ;;; k" := (bind c (fun _ => k))
  (at level 100, right associativity) : py_scope.

(** ** base_finger.py: the robot connector *)

Module base_finger.

Local Open Scope py_scope.

(** [pybullet.GUI] and [pybullet.DIRECT]. *)
Inductive connection_mode : Type := GUI | DIRECT.

(** What the connector touches outside of its own attributes: the pybullet
    client of the process (connected in some mode, or not connected), the
    lines written by [print] and the warnings given to [warnings.warn]. *)
Record Process : Type := mkProcess {
  pybullet_client : option connection_mode;
  stdout : list string;
  issued_warnings : list string
}.

(** [pybullet.connect(mode)].  The record keeps the default client only,
    the one that [isConnected()] and [disconnect()] act on when called
    without a client id, as the connector calls them.  pybullet gives a
    connect made while a connection is open a further client and leaves the
    default one as it is; the record does not keep further clients, so the
    model follows pybullet for a process that is not connected when
    [connect] is called. *)
Definition pybullet_connect (m : connection_mode) : M Process unit :=
  modify (fun p => mkProcess (Some m) (stdout p) (issued_warnings p)).

Definition pybullet_isConnected : M Process bool :=
  gets (fun p => bool_decide (is_Some (pybullet_client p))).

(** [pybullet.disconnect] raises [pybullet.error] without a connection. *)
Definition pybullet_disconnect : M Process unit :=
  fun p => match pybullet_client p with
           | Some _ => (Ok tt, mkProcess None (stdout p) (issued_warnings p))
           | None => (Raise (PybulletError "Not connected to physics server."), p)
           end.

Definition print (line : string) : M Process unit :=
  modify (fun p => mkProcess (pybullet_client p) (stdout p ++ [line])
                             (issued_warnings p)).

Definition warnings_warn (msg : string) : M Process unit :=
  modify (fun p => mkProcess (pybullet_client p) (stdout p)
                             (issued_warnings p ++ [msg])).

(** The [finger_types_data] module of the package: the table of finger
    types behind three lookups, each of which rejects a name that is not
    in the table. *)
Class FingerTypesData : Type := {
  check_finger_type : string -> result string;
  get_finger_urdf : string -> result string;
  get_number_of_fingers : string -> result Z
}.

(** Asset resolution and the kinematics library: [rospkg], [os.path],
    the directory of the module's own file, and the constructor of
    [pinocchio_utils.PinocchioUtils] with the type of what it builds. *)
Class Assets : Type := {
  rospkg_get_path : string -> result string;
  os_path_join : list string -> string;
  module_dirname : string;
  Kinematics : Type;
  PinocchioUtils : string -> list string -> Kinematics
}.

Section Connector.

Context `{FingerTypesData} `{Assets}.

Record BaseFinger : Type := mkBaseFinger {
  enable_visualization : bool;
  finger_type : string;
  (** Read by the connector, which never assigns it before reading: the
      deriving class puts it on the object before it calls the base
      constructor. *)
  enable_simulation : bool;
  robot_properties_path : string;
  finger_urdf_path : string;
  number_of_fingers : Z;
  link_names : list string;
  tip_link_names : list string;
  pinocchio_utils : Kinematics
}.

Definition set_enable_simulation (b : bool) (self : BaseFinger) : BaseFinger :=
  mkBaseFinger (enable_visualization self) (finger_type self) b
    (robot_properties_path self) (finger_urdf_path self)
    (number_of_fingers self) (link_names self) (tip_link_names self)
    (pinocchio_utils self).

Definition deprecation_message : string :=
  "Finger types 'single' and 'tri' are deprecated."
  ++ " Use 'fingerone' and 'trifingerone' instead.".

Definition local_copy_message : string :=
  "Importing the robot description files from local copy "
  ++ "of the robot_properties_fingers package.".

(** [finger_type in ["single", "tri"]] *)
Definition is_deprecated (finger_type : string) : bool :=
  bool_decide (finger_type ∈ ["single"; "tri"]).

(** [__connect_to_simulation] *)
Definition __connect_to_simulation (enable_simulation enable_visualization : bool)
  : M Process unit :=
  if negb enable_simulation then ret tt
  else if enable_visualization then pybullet_connect GUI
  else pybullet_connect DIRECT.

(** [_disconnect_from_simulation]: the method returns nothing; the
    object it leaves behind is the value of the call here. *)
Definition _disconnect_from_simulation (self : BaseFinger) : M Process BaseFinger :=
  if enable_simulation self then
    connected <- pybullet_isConnected ;;
    (if connected : bool then pybullet_disconnect else ret tt) ;;;
    ret (set_enable_simulation false self)
  else ret self.

(** [__set_finger_type_dependency]: assigns [robot_properties_path],
    [finger_urdf_path] and [number_of_fingers], returned in this order. *)
Definition __set_finger_type_dependency (finger_type : string)
  : M Process (string * string * Z) :=
  robot_properties_path <-
    try_except
      (lift (rospkg_get_path "robot_properties_fingers"))
      (fun _ =>
         print local_copy_message ;;;
         ret (os_path_join [module_dirname; "robot_properties_fingers"])) ;;
  (if is_deprecated finger_type
   then warnings_warn deprecation_message else ret tt) ;;;
  urdf_file <- lift (get_finger_urdf finger_type) ;;
  n <- lift (get_number_of_fingers finger_type) ;;
  ret (robot_properties_path,
       os_path_join [robot_properties_path; "urdf"; urdf_file],
       n).

(** [__init_joint_lists]: assigns [link_names] and [tip_link_names]. *)
Definition __init_joint_lists (number_of_fingers : Z)
  : list string * list string :=
  if (number_of_fingers =? 1)%Z then
    ([ "finger_upper_link";
       "finger_middle_link";
       "finger_lower_link" ],
     [ "finger_tip_link" ])
  else
    ([ "finger_upper_link_0";
       "finger_middle_link_0";
       "finger_lower_link_0";
       "finger_upper_link_120";
       "finger_middle_link_120";
       "finger_lower_link_120";
       "finger_upper_link_240";
       "finger_middle_link_240";
       "finger_lower_link_240" ],
     [ "finger_tip_link_0";
       "finger_tip_link_120";
       "finger_tip_link_240" ]).

(** [__init__].  The first argument is the [enable_simulation] attribute
    the deriving class has put on the object. *)
Definition __init__ (enable_simulation : bool)
    (finger_type : string) (enable_visualization : bool)
  : M Process BaseFinger :=
  finger_type <- lift (check_finger_type finger_type) ;;
  dep <- __set_finger_type_dependency finger_type ;;
  let '(robot_properties_path, finger_urdf_path, number_of_fingers) := dep in
  let '(link_names, tip_link_names) := __init_joint_lists number_of_fingers in
  __connect_to_simulation enable_simulation enable_visualization ;;;
  ret (mkBaseFinger enable_visualization finger_type enable_simulation
         robot_properties_path finger_urdf_path number_of_fingers
         link_names tip_link_names
         (PinocchioUtils finger_urdf_path tip_link_names)).

(** [__del__] *)
Definition __del__ (self : BaseFinger) : M Process BaseFinger :=
  _disconnect_from_simulation self.

End Connector.

End base_finger.

(** ** trifinger_platform.py: observations, actions and the action log *)

Local Open Scope float_scope.

(** [ObjectPose] *)
Module ObjectPose.
Record t : Type := mk {
  position : list float;
  orientation : list float;
  timestamp : option float;
  confidence : float
}.

(** [np.zeros(n)] *)
Definition zeros (n : nat) : list float := replicate n 0.

(** [ObjectPose()] *)
Definition new : t := mk (zeros 3) (zeros 4) (Some 0) 1.

Definition set_position (v : list float) (p : t) : t :=
  mk v (orientation p) (timestamp p) (confidence p).
Definition set_orientation (v : list float) (p : t) : t :=
  mk (position p) v (timestamp p) (confidence p).
Definition set_timestamp (v : option float) (p : t) : t :=
  mk (position p) (orientation p) v (confidence p).
Definition set_confidence (v : float) (p : t) : t :=
  mk (position p) (orientation p) (timestamp p) v.
End ObjectPose.

(** [CameraObservation], over the type of images. *)
Module CameraObservation.
Record t (Image : Type) : Type := mk {
  image : option Image;
  timestamp : option float
}.
Arguments mk {Image} image timestamp.
Arguments image {Image} _.
Arguments timestamp {Image} _.

(** [CameraObservation()] *)
Definition new {Image} : t Image := mk None None.

Definition set_image {Image} (v : option Image) (c : t Image) : t Image :=
  mk v (timestamp c).
Definition set_timestamp {Image} (v : option float) (c : t Image) : t Image :=
  mk (image c) v.
End CameraObservation.

(** [TriCameraObservation] *)
Module TriCameraObservation.
Record t (Image : Type) : Type := mk {
  cameras : list (CameraObservation.t Image)
}.
Arguments mk {Image} cameras.
Arguments cameras {Image} _.

(** [TriCameraObservation()]: [[CameraObservation() for i in range(3)]] *)
Definition new {Image} : t Image := mk (replicate 3 CameraObservation.new).
End TriCameraObservation.

(** The [Action] of the robot interface: four arrays of floats. *)
Module Action.
Record t : Type := mk {
  torque : list float;
  position : list float;
  position_kp : list float;
  position_kd : list float
}.
End Action.

(** An object with [position] and [orientation], as [__init__] takes it. *)
Module Pose.
Record t : Type := mk {
  position : list float;
  orientation : list float
}.
End Pose.

(** The action log.  The source keeps it in a [dict] with the fixed keys
    below; [final_object_pose] is the one key added after construction. *)
Module ActionLog.

(** [{"position": ..., "orientation": ...}] *)
Record pose_entry : Type := mk_pose {
  position : list float;
  orientation : list float
}.

(** [{"t": ..., "torque": ..., "position": ..., "position_kp": ...,
    "position_kd": ...}] *)
Record action_entry : Type := mk_action {
  t : Z;
  torque : list float;
  action_position : list float;
  position_kp : list float;
  position_kd : list float
}.

Record log : Type := mk {
  initial_robot_position : list float;
  initial_object_pose : pose_entry;
  actions : list action_entry;
  final_object_pose : option pose_entry
}.

(** [log["actions"].append(e)] *)
Definition append_action (e : action_entry) (l : log) : log :=
  mk (initial_robot_position l) (initial_object_pose l)
     (actions l ++ [e]) (final_object_pose l).

(** [log["final_object_pose"] = p] *)
Definition set_final_object_pose (p : pose_entry) (l : log) : log :=
  mk (initial_robot_position l) (initial_object_pose l)
     (actions l) (Some p).

End ActionLog.

(** JSON documents, as [json.dump] writes them: objects keep the order in
    which the keys were inserted into the [dict]. *)
Module Json.

Inductive value : Type :=
| JInt (z : Z)
| JFloat (f : float)
| JArray (items : list value)
| JObject (members : list (string * value)).

Definition of_floats (xs : list float) : value := JArray (map JFloat xs).

Definition of_pose_entry (p : ActionLog.pose_entry) : value :=
  JObject [ ("position", of_floats (ActionLog.position p));
            ("orientation", of_floats (ActionLog.orientation p)) ].

Definition of_action_entry (e : ActionLog.action_entry) : value :=
  JObject [ ("t", JInt (ActionLog.t e));
            ("torque", of_floats (ActionLog.torque e));
            ("position", of_floats (ActionLog.action_position e));
            ("position_kp", of_floats (ActionLog.position_kp e));
            ("position_kd", of_floats (ActionLog.position_kd e)) ].

Definition of_log (l : ActionLog.log) : value :=
  JObject
    ([ ("initial_robot_position", of_floats (ActionLog.initial_robot_position l));
       ("initial_object_pose", of_pose_entry (ActionLog.initial_object_pose l));
       ("actions", JArray (map of_action_entry (ActionLog.actions l))) ]
     ++ match ActionLog.final_object_pose l with
        | Some p => [ ("final_object_pose", of_pose_entry p) ]
        | None => []
        end).

(** [doc[key]] on an object. *)
Fixpoint member (key : string) (members : list (string * value)) : option value :=
  match members with
  | [] => None
  | (k, v) :: rest => if String.eqb k key then Some v else member key rest
  end.

Definition field (key : string) (doc : value) : option value :=
  match doc with
  | JObject members => member key members
  | _ => None
  end.

End Json.

(** The files a process can write: which paths [open(path, "w")] accepts,
    and what each written file holds. *)
Record Disk : Type := mkDisk {
  writable : string -> bool;
  files : gmap string Json.value
}.

(** Python's conversion of an [int] to a [float]; exact below [2^53]. *)
Fixpoint float_of_positive (p : positive) : float :=
  match p with
  | xH => 1
  | xO q => 2 * float_of_positive q
  | xI q => 2 * float_of_positive q + 1
  end.

Definition float_of_Z (z : Z) : float :=
  match z with
  | Z0 => 0
  | Zpos p => float_of_positive p
  | Zneg p => - float_of_positive p
  end.

(** ** trifinger_platform.py: the platform facade *)

Module trifinger_platform.

Local Open Scope py_scope.

(** What the facade calls into.  [World] is the state of the physics
    backend, which the robot stepper ([sim_finger.SimFinger]), the cube
    ([collision_objects.Block]) and the cameras
    ([camera.TriFingerCameras]) all act on; [Image] is what a camera
    renders.  [sample_goal] is the pose that [move_cube.sample_goal]
    draws. *)
Class Backend : Type := {
  World : Type;
  Image : Type;
  deg2rad : float -> float;
  SimFinger : string -> float -> bool -> World;
  reset_finger_positions_and_velocities : list float -> World -> World;
  simfinger_append_desired_action : Action.t -> World -> Z * World;
  get_timestamp_ms : Z -> World -> float;
  get_current_timeindex : World -> Z;
  sample_goal : Z -> Pose.t;
  Block : list float -> list float -> World -> World;
  cube_get_state : World -> list float * list float;
  TriFingerCameras : World -> World;
  get_images : World -> list Image
}.

Section Platform.

Context `{Backend}.

Record TriFingerPlatform : Type := mkPlatform {
  camera_rate_fps : Z;
  enable_cameras : bool;
  _time_step : float;
  _next_camera_update_step : Z;
  (** [simfinger], [cube] and [tricamera]: three handles on the one
      physics backend. *)
  simfinger : World;
  _action_log : ActionLog.log;
  (** The two attributes that [__init__] does not assign. *)
  _object_pose_t : option ObjectPose.t;
  _camera_observation_t : option (TriCameraObservation.t Image)
}.

Definition set_simfinger (w : World) (self : TriFingerPlatform) :=
  mkPlatform (camera_rate_fps self) (enable_cameras self) (_time_step self)
    (_next_camera_update_step self) w (_action_log self)
    (_object_pose_t self) (_camera_observation_t self).

Definition set__action_log (l : ActionLog.log) (self : TriFingerPlatform) :=
  mkPlatform (camera_rate_fps self) (enable_cameras self) (_time_step self)
    (_next_camera_update_step self) (simfinger self) l
    (_object_pose_t self) (_camera_observation_t self).

Definition set__object_pose_t (p : ObjectPose.t) (self : TriFingerPlatform) :=
  mkPlatform (camera_rate_fps self) (enable_cameras self) (_time_step self)
    (_next_camera_update_step self) (simfinger self) (_action_log self)
    (Some p) (_camera_observation_t self).

Definition set__camera_observation_t (o : TriCameraObservation.t Image)
    (self : TriFingerPlatform) :=
  mkPlatform (camera_rate_fps self) (enable_cameras self) (_time_step self)
    (_next_camera_update_step self) (simfinger self) (_action_log self)
    (_object_pose_t self) (Some o).

(** Reading an attribute that may not have been assigned yet. *)
Definition getattr {A} (name : string) (field : TriFingerPlatform -> option A)
  : M TriFingerPlatform A :=
  fun self => match field self with
              | Some a => (Ok a, self)
              | None => (Raise (AttributeError name), self)
              end.

(** [xs[i] = f(xs[i])], as an attribute assignment on the item does. *)
Definition setitem_with {A} (i : nat) (f : A -> A) (xs : list A) : result (list A) :=
  match xs !! i with
  | Some x => Ok (<[i := f x]> xs)
  | None => Raise (IndexError "list index out of range")
  end.

(** A loop over [items] that updates a local list. *)
Fixpoint for_items {A B} (items : list B) (body : B -> list A -> result (list A))
    (xs : list A) : result (list A) :=
  match items with
  | [] => Ok xs
  | b :: rest => match body b xs with
                 | Ok xs' => for_items rest body xs'
                 | Raise e => Raise e
                 end
  end.

Definition invalid_time_index : string :=
  "Given time index t has to match with index of the current"
  ++ " step or the next one.".

Definition cameras_not_enabled : string :=
  "Cameras are not enabled.  Create `TriFingerPlatform` with"
  ++ " `enable_cameras=True` if you want to use camera"
  ++ " observations.".

(** [__init__].  The robot-frontend methods that the source forwards to
    [simfinger] ([get_timestamp_ms], [get_current_timeindex], ...) are the
    operations of [Backend], applied to the [simfinger] field. *)
Definition __init__ (visualization : bool) (initial_object_pose : option Pose.t)
    (enable_cameras : bool) : TriFingerPlatform :=
  let camera_rate_fps := 30%Z in
  let _time_step := 0.004 in
  let _next_camera_update_step := 0%Z in
  let initial_position :=
    concat (replicate 3 [0; deg2rad (-70); deg2rad (-130)]) in
  let simfinger := SimFinger "trifingerpro" _time_step visualization in
  let simfinger :=
    reset_finger_positions_and_velocities initial_position simfinger in
  let initial_object_pose :=
    match initial_object_pose with
    | None => sample_goal (-1)
    | Some pose => pose
    end in
  let simfinger :=
    Block (Pose.position initial_object_pose)
          (Pose.orientation initial_object_pose) simfinger in
  let _action_log :=
    ActionLog.mk initial_position
      (ActionLog.mk_pose (Pose.position initial_object_pose)
                         (Pose.orientation initial_object_pose))
      [] None in
  let simfinger := TriFingerCameras simfinger in
  mkPlatform camera_rate_fps enable_cameras _time_step
    _next_camera_update_step simfinger _action_log None None.

(** [get_time_step] *)
Definition get_time_step : M TriFingerPlatform float := gets _time_step.

(** [_compute_camera_update_step_interval] *)
Definition _compute_camera_update_step_interval : M TriFingerPlatform float :=
  gets (fun self => (1 / float_of_Z (camera_rate_fps self)) / _time_step self).

(** [_get_current_object_pose] *)
Definition _get_current_object_pose (t : option Z)
  : M TriFingerPlatform ObjectPose.t :=
  cube_state <- gets (fun self => cube_get_state (simfinger self)) ;;
  let pose := ObjectPose.new in
  let pose := ObjectPose.set_position (fst cube_state) pose in
  let pose := ObjectPose.set_orientation (snd cube_state) pose in
  let pose := ObjectPose.set_confidence 1 pose in
  match t with
  | None => ret (ObjectPose.set_timestamp None pose)
  | Some t =>
      ms <- gets (fun self => get_timestamp_ms t (simfinger self)) ;;
      ret (ObjectPose.set_timestamp (Some ms) pose)
  end.

(** [_get_current_camera_observation] *)
Definition _get_current_camera_observation (t : option Z)
  : M TriFingerPlatform (TriCameraObservation.t Image) :=
  images <- gets (fun self => get_images (simfinger self)) ;;
  let observation := TriCameraObservation.new in
  timestamp <-
    match t with
    | None => ret None
    | Some t => ms <- gets (fun self => get_timestamp_ms t (simfinger self)) ;;
                ret (Some ms)
    end ;;
  cameras <-
    lift (for_items (enumerate images)
            (fun '(i, image) =>
               setitem_with i
                 (fun c => CameraObservation.set_timestamp timestamp
                             (CameraObservation.set_image (Some image) c)))
            (TriCameraObservation.cameras observation)) ;;
  ret (TriCameraObservation.mk cameras).

(** [append_desired_action] *)
Definition append_desired_action (action : Action.t) : M TriFingerPlatform Z :=
  let has_camera_update := true in
  pose <- _get_current_object_pose None ;;
  modify (set__object_pose_t pose) ;;;
  cams_on <- gets enable_cameras ;;
  (if cams_on : bool then
     observation <- _get_current_camera_observation None ;;
     modify (set__camera_observation_t observation)
   else ret tt) ;;;
  t <- (fun self =>
          let '(t, w) := simfinger_append_desired_action action (simfinger self) in
          (Ok t, set_simfinger w self)) ;;
  (if has_camera_update : bool then
     ms <- gets (fun self => get_timestamp_ms t (simfinger self)) ;;
     let camera_timestamp_s := ms / 1000 in
     pose <- getattr "_object_pose_t" _object_pose_t ;;
     modify (set__object_pose_t
               (ObjectPose.set_timestamp (Some camera_timestamp_s) pose)) ;;;
     cams_on <- gets enable_cameras ;;
     if cams_on : bool then
       observation <- getattr "_camera_observation_t" _camera_observation_t ;;
       let cameras := TriCameraObservation.cameras observation in
       cameras <-
         lift (for_items (seq 0 (length cameras))
                 (fun i => setitem_with i
                             (CameraObservation.set_timestamp
                                (Some camera_timestamp_s)))
                 cameras) ;;
       modify (set__camera_observation_t (TriCameraObservation.mk cameras))
     else ret tt
   else ret tt) ;;;
  log <- gets _action_log ;;
  modify (set__action_log
            (ActionLog.append_action
               (ActionLog.mk_action t
                  (Action.torque action)
                  (Action.position action)
                  (Action.position_kp action)
                  (Action.position_kd action))
               log)) ;;;
  ret t.

(** [get_object_pose] *)
Definition get_object_pose (t : Z) : M TriFingerPlatform ObjectPose.t :=
  current_t <- gets (fun self => get_current_timeindex (simfinger self)) ;;
  if (t =? current_t)%Z then
    getattr "_object_pose_t" _object_pose_t
  else if (t =? current_t + 1)%Z then
    _get_current_object_pose (Some t)
  else
    raise (ValueError invalid_time_index).

(** [get_camera_observation] *)
Definition get_camera_observation (t : Z)
  : M TriFingerPlatform (TriCameraObservation.t Image) :=
  cams_on <- gets enable_cameras ;;
  if negb cams_on then
    raise (RuntimeError cameras_not_enabled)
  else
    current_t <- gets (fun self => get_current_timeindex (simfinger self)) ;;
    if (t =? current_t)%Z then
      getattr "_camera_observation_t" _camera_observation_t
    else if (t =? current_t + 1)%Z then
      _get_current_camera_observation (Some t)
    else
      raise (ValueError invalid_time_index).

(** [store_action_log]: the value of the call is the disk it leaves. *)
Definition store_action_log (filename : string) (disk : Disk)
  : M TriFingerPlatform Disk :=
  t <- gets (fun self => get_current_timeindex (simfinger self)) ;;
  object_pose <- get_object_pose t ;;
  log <- gets _action_log ;;
  modify (set__action_log
            (ActionLog.set_final_object_pose
               (ActionLog.mk_pose (ObjectPose.position object_pose)
                                  (ObjectPose.orientation object_pose))
               log)) ;;;
  if writable disk filename then
    log <- gets _action_log ;;
    ret (mkDisk (writable disk) (<[filename := Json.of_log log]> (files disk)))
  else
    raise (OSError filename).

End Platform.

End trifinger_platform.

(** ** A backend to run the model on

    Instances of the interfaces above, to evaluate the two files on concrete
    inputs. *)

Module reference.

Import base_finger trifinger_platform.

Record world : Type := mk_world {
  time_index : Z;
  cube_position : list float;
  cube_orientation : list float;
  joint_positions : list float
}.

(** Modelled from the spec: the robot stepper of [sim_finger] (section
    4.2 of the design: one call advances the simulation by exactly one
    fixed time step and returns the index of the step just completed).  The
    physics is a toy: a step shifts the cube by the first torque entry. *)
Definition step (a : Action.t) (w : world) : Z * world :=
  let push := hd 0 (Action.torque a) in
  let t := (time_index w + 1)%Z in
  (t, mk_world t (map (fun x => x + push) (cube_position w))
        (cube_orientation w) (joint_positions w)).

(** Modelled from the spec: time indices start at 0, a step lasts 4 ms,
    the three cameras deliver one image each (a number here). *)
#[export] Instance backend : Backend := {|
  World := world;
  Image := Z;
  deg2rad := fun x => x * (0x1.921fb54442d18p+1 / 180);
  SimFinger := fun _ _ _ => mk_world 0 [] [] [];
  reset_finger_positions_and_velocities := fun q w =>
    mk_world (time_index w) (cube_position w) (cube_orientation w) q;
  simfinger_append_desired_action := step;
  get_timestamp_ms := fun t _ => float_of_Z (4 * t);
  get_current_timeindex := time_index;
  sample_goal := fun _ => Pose.mk [0; 0; 0.0325] [0; 0; 0; 1];
  Block := fun p o w => mk_world (time_index w) p o (joint_positions w);
  cube_get_state := fun w => (cube_position w, cube_orientation w);
  TriFingerCameras := fun w => w;
  get_images := fun w => [60 + time_index w; 180 + time_index w; 300 + time_index w]%Z
|}.

(** Modelled from the spec: the table of [finger_types_data], with the
    finger types the two files name (one-finger and three-finger types and
    their deprecated aliases); the asset names are placeholders. *)
Definition finger_table : list (string * (string * Z)) :=
  [ ("fingerone", ("finger.urdf", 1%Z));
    ("trifingerone", ("trifinger.urdf", 3%Z));
    ("trifingerpro", ("trifingerpro.urdf", 3%Z));
    ("single", ("finger.urdf", 1%Z));
    ("tri", ("trifinger.urdf", 3%Z)) ].

Fixpoint lookup_finger (name : string) (table : list (string * (string * Z)))
  : result (string * Z) :=
  match table with
  | [] => Raise (ValueError "Invalid finger type")
  | (k, v) :: rest => if String.eqb k name then Ok v else lookup_finger name rest
  end.

#[export] Instance finger_types : FingerTypesData := {|
  check_finger_type := fun name =>
    match lookup_finger name finger_table with
    | Ok _ => Ok name
    | Raise e => Raise e
    end;
  get_finger_urdf := fun name =>
    match lookup_finger name finger_table with
    | Ok v => Ok (fst v)
    | Raise e => Raise e
    end;
  get_number_of_fingers := fun name =>
    match lookup_finger name finger_table with
    | Ok v => Ok (snd v)
    | Raise e => Raise e
    end
|}.

#[export] Instance assets : Assets := {|
  rospkg_get_path := fun _ => Raise (RuntimeError "No module named 'rospkg'");
  os_path_join := fun parts => String.concat "/" parts;
  module_dirname := "/opt/trifinger_simulation";
  Kinematics := string * list string;
  PinocchioUtils := fun urdf tips => (urdf, tips)
|}.

Definition fresh_process : Process := mkProcess None [] [].

Definition cube_pose : Pose.t := Pose.mk [0; 0; 1] [0; 0; 0; 1].

Definition push (x : float) : Action.t := Action.mk [x; 0; 0] [] [] [].

(** A platform as [TriFingerPlatform(initial_object_pose=cube_pose,
    enable_cameras=...)] constructs it. *)
Definition new_platform (enable_cameras : bool) : TriFingerPlatform :=
  trifinger_platform.__init__ false (Some cube_pose) enable_cameras.

Definition empty_disk : Disk := mkDisk (fun _ => true) ∅.

End reference.


Local Close Scope float_scope.
Local Open Scope list_scope.

(** ** Contracts of the collaborators and runs of the facade *)

Module contracts.

Import trifinger_platform.
Local Open Scope py_scope.

(** Modelled from the spec: the contract of the robot stepper of
    [sim_finger] (section 4.2 of the design): one call advances the
    simulation by exactly one step and returns the index of the step just
    completed, which is then the current time index. *)
Class StepperContract `{Backend} : Prop := {
  step_returns_current : forall a w,
    get_current_timeindex (snd (simfinger_append_desired_action a w))
    = fst (simfinger_append_desired_action a w);
  step_advances_by_one : forall a w,
    fst (simfinger_append_desired_action a w)
    = (get_current_timeindex w + 1)%Z
}.

(** Modelled from the spec: the camera rig of [camera] renders three
    images, one per camera (section 3: exactly three observations). *)
Class CameraContract `{Backend} : Prop := {
  three_images : forall w, length (get_images w) = 3
}.

Section Runs.

Context `{Backend}.

(** The calls a user of the facade can make. *)
Inductive call : Type :=
| AppendDesiredAction (action : Action.t)
| GetObjectPose (t : Z)
| GetCameraObservation (t : Z)
| StoreActionLog (filename : string).

(** One call, whatever it returns or raises, on the platform and the
    disk. *)
Definition run_call (c : call) (s : TriFingerPlatform * Disk)
  : TriFingerPlatform * Disk :=
  match c with
  | AppendDesiredAction a => (snd (append_desired_action a (fst s)), snd s)
  | GetObjectPose t => (snd (get_object_pose t (fst s)), snd s)
  | GetCameraObservation t => (snd (get_camera_observation t (fst s)), snd s)
  | StoreActionLog f =>
      match store_action_log f (snd s) (fst s) with
      | (Ok disk', self') => (self', disk')
      | (Raise _, self') => (self', snd s)
      end
  end.

Definition run_calls (cs : list call) (s : TriFingerPlatform * Disk)
  : TriFingerPlatform * Disk :=
  fold_left (fun s c => run_call c s) cs s.

(** [[self.append_desired_action(a) for a in actions]] *)
Fixpoint append_all (actions : list Action.t) : M TriFingerPlatform (list Z) :=
  match actions with
  | [] => ret []
  | a :: rest =>
      t <- append_desired_action a ;;
      ts <- append_all rest ;;
      ret (t :: ts)
  end.

(** Both caches hold a value (the camera cache when cameras are on). *)
Definition caches_filled (self : TriFingerPlatform) : Prop :=
  is_Some (_object_pose_t self)
  /\ (enable_cameras self = true -> is_Some (_camera_observation_t self)).

(** The log entry that [append_desired_action] writes for an action. *)
Definition entry_of (t : Z) (a : Action.t) : ActionLog.action_entry :=
  ActionLog.mk_action t (Action.torque a) (Action.position a)
    (Action.position_kp a) (Action.position_kd a).

(** The time index the stepper returns for [a], and the world after. *)
Definition stepped_index (a : Action.t) (self : TriFingerPlatform) : Z :=
  fst (simfinger_append_desired_action a (simfinger self)).

Definition stepped_world (a : Action.t) (self : TriFingerPlatform) : World :=
  snd (simfinger_append_desired_action a (simfinger self)).

End Runs.

End contracts.

(** ** base_finger.py: loading the robot model *)

Module robot_urdf.

Import base_finger.

(** What [_load_robot_urdf] can raise: a builtin exception of [Py.exn], or
    the [KeyError] of a dictionary lookup. *)
Inductive error : Type :=
| Builtin (e : exn)
| KeyError (key : string).

Inductive outcome (A : Type) : Type :=
| Returned (a : A)
| Raised (e : error).
Arguments Returned {A} a.
Arguments Raised {A} e.

(** The part of [pybullet] that [_load_robot_urdf] calls, on the state of
    the physics server.  Names are given decoded: [getBodyInfo] is
    [pybullet.getBodyInfo(body)[0].decode("UTF-8")], the name of the base
    link, and [getJointInfo] is
    [pybullet.getJointInfo(body, joint)[12].decode("UTF-8")], the name of
    the link that the joint moves. *)
Class Pybullet : Type := {
  Server : Type;
  URDF_USE_INERTIA_FROM_FILE : Z;
  URDF_USE_SELF_COLLISION : Z;
  getQuaternionFromEuler : list float -> list float;
  loadURDF : string -> list float -> list float -> Z -> Z -> Server
             -> result Z * Server;
  getBodyInfo : Z -> Server -> string;
  getNumJoints : Z -> Server -> Z;
  getJointInfo : Z -> Z -> Server -> string
}.

(** The attributes that [_load_robot_urdf] assigns; [None] is an attribute
    that has not been assigned. *)
Record attributes : Type := mk_attributes {
  finger_id : option Z;
  pybullet_link_indices : option (list Z);
  pybullet_tip_link_indices : option (list Z);
  pybullet_joint_indices : option (list Z)
}.

Definition unassigned : attributes := mk_attributes None None None None.

Definition set_finger_id (v : Z) (o : attributes) : attributes :=
  mk_attributes (Some v) (pybullet_link_indices o)
    (pybullet_tip_link_indices o) (pybullet_joint_indices o).
Definition set_pybullet_link_indices (v : list Z) (o : attributes) : attributes :=
  mk_attributes (finger_id o) (Some v)
    (pybullet_tip_link_indices o) (pybullet_joint_indices o).
Definition set_pybullet_tip_link_indices (v : list Z) (o : attributes) : attributes :=
  mk_attributes (finger_id o) (pybullet_link_indices o)
    (Some v) (pybullet_joint_indices o).
Definition set_pybullet_joint_indices (v : list Z) (o : attributes) : attributes :=
  mk_attributes (finger_id o) (pybullet_link_indices o)
    (pybullet_tip_link_indices o) (Some v).

(** [range(n)] *)
Definition range (n : Z) : list Z := map Z.of_nat (seq 0 (Z.to_nat n)).

(** [[d[name] for name in names]] *)
Fixpoint lookup_all (d : gmap string Z) (names : list string) : outcome (list Z) :=
  match names with
  | [] => Returned []
  | name :: rest =>
      match d !! name with
      | None => Raised (KeyError name)
      | Some index =>
          match lookup_all d rest with
          | Returned indices => Returned (index :: indices)
          | Raised e => Raised e
          end
      end
  end.

Section Loader.

Context `{FingerTypesData} `{Assets} `{Pybullet}.

(** The dictionary [link_name_to_index]: the base link at [-1], then each
    joint's link at the joint's index, a later joint replacing an earlier
    entry of the same name. *)
Definition link_name_to_index (finger_id : Z) (server : Server) : gmap string Z :=
  foldl (fun d joint_idx =>
           <[getJointInfo finger_id joint_idx server := joint_idx]> d)
        {[ getBodyInfo finger_id server := (-1)%Z ]}
        (range (getNumJoints finger_id server)).

(** The call [pybullet.loadURDF(fileName=self.finger_urdf_path,
    basePosition=finger_base_position,
    baseOrientation=finger_base_orientation, useFixedBase=1, flags=...)]
    of [_load_robot_urdf]; pybullet reads the entries of the position and of
    the Euler angles as doubles. *)
Definition load_call (self : BaseFinger) (server : Server) : result Z * Server :=
  let finger_base_position := [0; 0; 0]%float in
  let finger_base_orientation := getQuaternionFromEuler [0; 0; 0]%float in
  loadURDF (finger_urdf_path self) finger_base_position
    finger_base_orientation 1
    (Z.lor URDF_USE_INERTIA_FROM_FILE URDF_USE_SELF_COLLISION)
    server.

(** [_load_robot_urdf], on the attributes of [self] that it assigns and on
    the physics server. *)
Definition _load_robot_urdf (self : BaseFinger) (assigned : attributes)
    (server : Server) : outcome unit * attributes * Server :=
  if negb (enable_simulation self) then (Returned tt, assigned, server)
  else
    match load_call self server with
    | (Raise e, server) => (Raised (Builtin e), assigned, server)
    | (Ok body, server) =>
        let assigned := set_finger_id body assigned in
        let d := link_name_to_index body server in
        match lookup_all d (link_names self) with
        | Raised e => (Raised e, assigned, server)
        | Returned links =>
            let assigned := set_pybullet_link_indices links assigned in
            match lookup_all d (tip_link_names self) with
            | Raised e => (Raised e, assigned, server)
            | Returned tips =>
                let assigned := set_pybullet_tip_link_indices tips assigned in
                (Returned tt,
                 set_pybullet_joint_indices links assigned,
                 server)
            end
        end
    end.

(** [name] is the base link or the link of a joint of [body]. *)
Definition is_link (body : Z) (server : Server) (name : string) : Prop :=
  getBodyInfo body server = name
  \/ exists joint, (0 <= joint < getNumJoints body server)%Z
                   /\ getJointInfo body joint server = name.

(** [index] is an index of the link [name]: its joint, or [-1] for the base
    link. *)
Definition indexes (body : Z) (server : Server) (name : string) (index : Z)
  : Prop :=
  (index = (-1)%Z /\ getBodyInfo body server = name)
  \/ ((0 <= index < getNumJoints body server)%Z
      /\ getJointInfo body index server = name).

End Loader.

End robot_urdf.

(** ** Sessions of the facade *)

Module sessions.

Import trifinger_platform contracts.

Section Sessions.

Context `{Backend}.

(** The number of calls of [append_desired_action] among [cs]. *)
Fixpoint appends (cs : list call) : nat :=
  match cs with
  | [] => 0
  | AppendDesiredAction _ :: rest => S (appends rest)
  | _ :: rest => appends rest
  end.

(** The platform that a session of calls [cs] on a new platform reaches. *)
Definition session (visualization : bool) (initial_object_pose : option Pose.t)
    (enable_cameras : bool) (cs : list call) (disk : Disk) : TriFingerPlatform :=
  fst (run_calls cs
         (trifinger_platform.__init__ visualization initial_object_pose
            enable_cameras,
          disk)).

End Sessions.

End sessions.

(** Instances to evaluate [_load_robot_urdf] and the camera loop on. *)

Module reference_models.

Import base_finger trifinger_platform robot_urdf reference.

(** A body of the physics server: the name of its base link and, joint by
    joint, the name of the link that the joint moves. *)
Record body : Type := mk_body {
  base_link : string;
  joint_links : list string
}.

(** The bodies that the files of a small asset directory describe. *)
Definition urdf_files : list (string * body) :=
  [ ("/opt/trifinger_simulation/robot_properties_fingers/urdf/finger.urdf",
     mk_body "finger_base_link"
       [ "finger_upper_link"; "finger_middle_link"; "finger_lower_link";
         "finger_tip_link" ]);
    ("/opt/trifinger_simulation/robot_properties_fingers/urdf/trifinger.urdf",
     mk_body "base_link"
       [ "finger_upper_link_0"; "finger_middle_link_0"; "finger_lower_link_0";
         "finger_tip_link_0" ]);
    ("/opt/trifinger_simulation/robot_properties_fingers/urdf/trifingerpro.urdf",
     mk_body "base_link"
       [ "finger_upper_link_0"; "finger_middle_link_0"; "finger_lower_link_0";
         "finger_tip_link_0";
         "finger_upper_link_120"; "finger_middle_link_120";
         "finger_lower_link_120"; "finger_tip_link_120";
         "finger_upper_link_240"; "finger_middle_link_240";
         "finger_lower_link_240" ]);
    ("/opt/trifinger_simulation/robot_properties_fingers/urdf/finger_respun.urdf",
     mk_body "finger_tip_link"
       [ "finger_upper_link"; "finger_middle_link"; "finger_upper_link";
         "finger_lower_link"; "finger_tip_link" ]) ].

Fixpoint find_body (path : string) (table : list (string * body)) : option body :=
  match table with
  | [] => None
  | (k, b) :: rest => if String.eqb k path then Some b else find_body path rest
  end.

(** A physics server as the list of the bodies loaded so far; a body's id
    is its position in the list. *)
#[export] Instance server : Pybullet := {|
  Server := list body;
  URDF_USE_INERTIA_FROM_FILE := 2;
  URDF_USE_SELF_COLLISION := 8;
  getQuaternionFromEuler := fun _ => [0; 0; 0; 1]%float;
  loadURDF := fun path _ _ _ _ bodies =>
    match find_body path urdf_files with
    | Some b => (Ok (Z.of_nat (length bodies)), bodies ++ [b])
    | None => (Raise (PybulletError "Cannot load URDF file."), bodies)
    end;
  getBodyInfo := fun id bodies =>
    match bodies !! Z.to_nat id with
    | Some b => base_link b
    | None => ""
    end;
  getNumJoints := fun id bodies =>
    match bodies !! Z.to_nat id with
    | Some b => Z.of_nat (length (joint_links b))
    | None => 0%Z
    end;
  getJointInfo := fun id joint bodies =>
    match bodies !! Z.to_nat id with
    | Some b => default "" (joint_links b !! Z.to_nat joint)
    | None => ""
    end
|}.

(** A server without a body, and a server with one body. *)
Definition no_bodies : @Server server := @nil body.

Definition loaded (b : body) : @Server server := [b].

Definition finger_body : body :=
  mk_body "finger_base_link"
    [ "finger_upper_link"; "finger_middle_link"; "finger_lower_link";
      "finger_tip_link" ].

Definition trifinger_body : body :=
  mk_body "base_link"
    [ "finger_upper_link_0"; "finger_middle_link_0"; "finger_lower_link_0";
      "finger_tip_link_0" ].

(** The connector for a finger type of the reference table, constructed in
    a new process (an object without attributes stands for a construction
    that raised). *)
Definition connector (finger_type : string) : BaseFinger :=
  match fst (base_finger.__init__ true finger_type false fresh_process) with
  | Ok self => self
  | Raise _ => mkBaseFinger false "" false "" "" 0 [] [] ("", [])
  end.

(** A body in which two joints move links named [finger_upper_link] and
    the base link carries the name of a moving link, and a one-finger
    connector whose model file describes it. *)
Definition respun_body : body :=
  mk_body "finger_tip_link"
    [ "finger_upper_link"; "finger_middle_link"; "finger_upper_link";
      "finger_lower_link"; "finger_tip_link" ].

Definition respun_connector : BaseFinger :=
  let self := connector "fingerone" in
  mkBaseFinger (enable_visualization self) (finger_type self)
    (enable_simulation self) (robot_properties_path self)
    "/opt/trifinger_simulation/robot_properties_fingers/urdf/finger_respun.urdf"
    (number_of_fingers self) (link_names self) (tip_link_names self)
    (pinocchio_utils self).

(** A backend whose camera rig has a fourth camera. *)
Definition four_cameras : Backend := {|
  World := world;
  Image := Z;
  deg2rad := @deg2rad backend;
  SimFinger := @SimFinger backend;
  reset_finger_positions_and_velocities :=
    @reset_finger_positions_and_velocities backend;
  simfinger_append_desired_action := step;
  get_timestamp_ms := @get_timestamp_ms backend;
  get_current_timeindex := time_index;
  sample_goal := @sample_goal backend;
  Block := @Block backend;
  cube_get_state := @cube_get_state backend;
  TriFingerCameras := @TriFingerCameras backend;
  get_images := fun w => [60; 180; 300; 420]%Z
|}.

(** A disk on which only [log.json] can be written, holding a file. *)
Definition small_disk : Disk :=
  mkDisk (fun path => String.eqb path "log.json")
         {[ "notes.json"%string := Json.JArray [] ]}.

End reference_models.

(** * Properties *)

Import base_finger trifinger_platform contracts.
Local Open Scope py_scope.

(** Unfolding the method monad in a goal. *)
Ltac run_method :=
  unfold bind, gets, modify, ret, lift, raise, getattr; simpl.

(** Unfolding the method monad and the attribute assignments of the
    platform in a goal. *)
Ltac run_platform :=
  run_method;
  unfold set__object_pose_t, set_simfinger, set__camera_observation_t,
    set__action_log;
  simpl.

(** Rewriting the loop that fills a new camera observation, with the
    timestamp [ts] it writes, by a fact [lem] about that loop. *)
Ltac sample_images lem Hlen :=
  match goal with
  | |- context [CameraObservation.set_timestamp ?ts] =>
      rewrite (lem _ _
                 (fun image c =>
                    CameraObservation.set_timestamp ts
                      (CameraObservation.set_image (Some image) c))
                 CameraObservation.new _ Hlen)
  end.

Section LoopFacts.

Context {A B : Type}.

(** A loop over all positions of a list that rewrites each item visits
    every item once and never leaves the list. *)
Lemma for_items_seq (f : A -> A) (n k : nat) (xs : list A) :
  k + n = length xs ->
  for_items (seq k n) (fun i => setitem_with i f) xs
  = Ok (take k xs ++ map f (drop k xs)).
Proof.
  revert k xs. induction n as [|n IH]; intros k xs Hlen; simpl.
  - rewrite drop_ge by lia. rewrite take_ge by lia. now rewrite app_nil_r.
  - unfold setitem_with at 1.
    destruct (xs !! k) as [x|] eqn:Hx.
    2: { apply lookup_ge_None in Hx. lia. }
    rewrite IH by (rewrite length_insert; lia). f_equal.
    rewrite (take_S_r _ _ (f x)).
    2: { apply list_lookup_insert_eq. apply lookup_lt_Some in Hx. lia. }
    rewrite take_insert_ge by lia.
    rewrite drop_insert_lt by lia.
    rewrite (drop_S xs x k Hx). simpl.
    now rewrite <- app_assoc.
Qed.

Lemma for_items_all (f : A -> A) (xs : list A) :
  for_items (seq 0 (length xs)) (fun i => setitem_with i f) xs = Ok (map f xs).
Proof.
  rewrite for_items_seq by lia. now rewrite take_0, drop_0.
Qed.

(** Filling the three slots of a new observation from three images. *)
Lemma for_items_fill (g : B -> A -> A) (slot : A) (images : list B) :
  length images = 3 ->
  for_items (enumerate images) (fun '(i, image) => setitem_with i (g image))
    [slot; slot; slot]
  = Ok (map (fun image => g image slot) images).
Proof.
  destruct images as [|a [|b [|c [|d rest]]]]; simpl; try discriminate.
  reflexivity.
Qed.

(** A fourth image has no slot to go to. *)
Lemma for_items_overflow (g : B -> A -> A) (slot : A) (images : list B) :
  3 < length images ->
  for_items (enumerate images) (fun '(i, image) => setitem_with i (g image))
    [slot; slot; slot]
  = Raise (IndexError "list index out of range").
Proof.
  destruct images as [|a [|b [|c [|d rest]]]]; simpl; try lia.
  reflexivity.
Qed.

(** With at most three images the loop ends normally. *)
Lemma for_items_fill_ok (g : B -> A -> A) (slot : A) (images : list B) :
  length images <= 3 ->
  exists slots,
    for_items (enumerate images) (fun '(i, image) => setitem_with i (g image))
      [slot; slot; slot] = Ok slots
    /\ length slots = 3.
Proof.
  destruct images as [|a [|b [|c [|d rest]]]]; simpl; try lia;
    intros _; eexists; split; reflexivity.
Qed.

End LoopFacts.

Section MonadFacts.

Context {St A B : Type}.

Lemma bind_ok (c : M St A) (k : A -> M St B) s a s' :
  c s = (Ok a, s') -> bind c k s = k a s'.
Proof. unfold bind. now intros ->. Qed.

Lemma bind_raise (c : M St A) (k : A -> M St B) s e s' :
  c s = (Raise e, s') -> bind c k s = (Raise e, s').
Proof. unfold bind. now intros ->. Qed.

End MonadFacts.

Section PlatformFacts.

Context `{Backend}.

Implicit Types (self : TriFingerPlatform) (a : Action.t) (t : Z).

(** *** The two samplers *)

Lemma _get_current_object_pose_unset self :
  _get_current_object_pose None self
  = (Ok (ObjectPose.mk (fst (cube_get_state (simfinger self)))
                       (snd (cube_get_state (simfinger self))) None 1%float),
     self).
Proof. reflexivity. Qed.

Lemma _get_current_object_pose_at t self :
  _get_current_object_pose (Some t) self
  = (Ok (ObjectPose.mk (fst (cube_get_state (simfinger self)))
                       (snd (cube_get_state (simfinger self)))
                       (Some (get_timestamp_ms t (simfinger self))) 1%float),
     self).
Proof. reflexivity. Qed.

Lemma _get_current_camera_observation_three (t : option Z) self :
  length (get_images (simfinger self)) = 3 ->
  _get_current_camera_observation t self
  = (Ok (TriCameraObservation.mk
           (map (fun image =>
                   CameraObservation.mk (Some image)
                     (option_map (fun t => get_timestamp_ms t (simfinger self)) t))
                (get_images (simfinger self)))),
     self).
Proof.
  intros Hlen. unfold _get_current_camera_observation.
  destruct t as [t|]; unfold bind, gets, ret, lift;
    unfold TriCameraObservation.new; simpl TriCameraObservation.cameras;
    sample_images @for_items_fill Hlen; reflexivity.
Qed.

Lemma _get_current_camera_observation_overflow (t : option Z) self :
  3 < length (get_images (simfinger self)) ->
  _get_current_camera_observation t self
  = (Raise (IndexError "list index out of range"), self).
Proof.
  intros Hlen. unfold _get_current_camera_observation.
  destruct t as [t|]; unfold bind, gets, ret, lift;
    unfold TriCameraObservation.new; simpl TriCameraObservation.cameras;
    sample_images @for_items_overflow Hlen; reflexivity.
Qed.

(** A sampler never changes the platform. *)
Lemma _get_current_camera_observation_pure (t : option Z) self :
  snd (_get_current_camera_observation t self) = self.
Proof.
  unfold _get_current_camera_observation.
  destruct t as [t|]; run_method;
    match goal with |- context [for_items ?l ?f ?x] => destruct (for_items l f x) end;
    reflexivity.
Qed.

(** *** [append_desired_action], in closed form *)

Lemma append_desired_action_run a self :
  (enable_cameras self = true -> length (get_images (simfinger self)) = 3) ->
  let t := stepped_index a self in
  let stamp := Some (get_timestamp_ms t (stepped_world a self) / 1000)%float in
  append_desired_action a self
  = (Ok t,
     mkPlatform (camera_rate_fps self) (enable_cameras self) (_time_step self)
       (_next_camera_update_step self) (stepped_world a self)
       (ActionLog.append_action (entry_of t a) (_action_log self))
       (Some (ObjectPose.mk (fst (cube_get_state (simfinger self)))
                            (snd (cube_get_state (simfinger self)))
                            stamp 1%float))
       (if enable_cameras self
        then Some (TriCameraObservation.mk
                     (map (fun image => CameraObservation.mk (Some image) stamp)
                          (get_images (simfinger self))))
        else _camera_observation_t self)).
Proof.
  intros Hcam. unfold stepped_index, stepped_world.
  destruct (simfinger_append_desired_action a (simfinger self)) as [t w] eqn:Hstep.
  simpl fst; simpl snd. cbv zeta.
  unfold append_desired_action.
  erewrite bind_ok by apply _get_current_object_pose_unset.
  erewrite bind_ok by reflexivity.
  erewrite bind_ok by reflexivity.
  simpl enable_cameras.
  destruct (enable_cameras self) eqn:Hen.
  - specialize (Hcam eq_refl).
    erewrite bind_ok.
    2: { erewrite bind_ok.
         2: { apply _get_current_camera_observation_three. exact Hcam. }
         reflexivity. }
    erewrite bind_ok.
    2: { simpl. rewrite Hstep. reflexivity. }
    erewrite bind_ok.
    2: { run_platform. rewrite ?Hen. simpl.
         rewrite length_map.
         rewrite <- (length_map
                       (fun image => CameraObservation.mk (Some image) None)
                       (get_images (simfinger self))).
         rewrite for_items_all. reflexivity. }
    run_platform. rewrite map_map. rewrite ?Hen. reflexivity.
  - erewrite bind_ok by reflexivity.
    erewrite bind_ok.
    2: { simpl. rewrite Hstep. reflexivity. }
    erewrite bind_ok.
    2: { run_platform. rewrite ?Hen. reflexivity. }
    run_platform. rewrite ?Hen. reflexivity.
Qed.

(** *** The two queries *)

Lemma get_object_pose_current t self :
  t = get_current_timeindex (simfinger self) ->
  get_object_pose t self
  = match _object_pose_t self with
    | Some pose => (Ok pose, self)
    | None => (Raise (AttributeError "_object_pose_t"), self)
    end.
Proof.
  intros ->. unfold get_object_pose. run_method.
  now rewrite Z.eqb_refl.
Qed.

Lemma get_object_pose_next t self :
  t = (get_current_timeindex (simfinger self) + 1)%Z ->
  get_object_pose t self
  = (Ok (ObjectPose.mk (fst (cube_get_state (simfinger self)))
                       (snd (cube_get_state (simfinger self)))
                       (Some (get_timestamp_ms t (simfinger self))) 1%float),
     self).
Proof.
  intros ->. unfold get_object_pose. run_method.
  rewrite Z.eqb_refl.
  destruct (Z.eqb_spec (get_current_timeindex (simfinger self) + 1)
              (get_current_timeindex (simfinger self))); [lia | reflexivity].
Qed.

Lemma get_object_pose_invalid t self :
  t <> get_current_timeindex (simfinger self) ->
  t <> (get_current_timeindex (simfinger self) + 1)%Z ->
  get_object_pose t self = (Raise (ValueError invalid_time_index), self).
Proof.
  intros H1 H2. unfold get_object_pose. run_method.
  destruct (Z.eqb_spec t (get_current_timeindex (simfinger self))); [lia|].
  destruct (Z.eqb_spec t (get_current_timeindex (simfinger self) + 1)); [lia|].
  reflexivity.
Qed.

Lemma get_camera_observation_disabled t self :
  enable_cameras self = false ->
  get_camera_observation t self
  = (Raise (RuntimeError cameras_not_enabled), self).
Proof.
  intros Hen. unfold get_camera_observation. run_method.
  now rewrite Hen.
Qed.

Lemma get_camera_observation_current t self :
  enable_cameras self = true ->
  t = get_current_timeindex (simfinger self) ->
  get_camera_observation t self
  = match _camera_observation_t self with
    | Some observation => (Ok observation, self)
    | None => (Raise (AttributeError "_camera_observation_t"), self)
    end.
Proof.
  intros Hen ->. unfold get_camera_observation. run_method.
  rewrite Hen. simpl. now rewrite Z.eqb_refl.
Qed.

Lemma get_camera_observation_next t self :
  enable_cameras self = true ->
  t = (get_current_timeindex (simfinger self) + 1)%Z ->
  get_camera_observation t self = _get_current_camera_observation (Some t) self.
Proof.
  intros Hen ->. unfold get_camera_observation.
  erewrite bind_ok by reflexivity. rewrite Hen. simpl.
  erewrite bind_ok by reflexivity. simpl.
  rewrite Z.eqb_refl.
  destruct (Z.eqb_spec (get_current_timeindex (simfinger self) + 1)
              (get_current_timeindex (simfinger self))); [lia | reflexivity].
Qed.

Lemma get_camera_observation_invalid t self :
  enable_cameras self = true ->
  t <> get_current_timeindex (simfinger self) ->
  t <> (get_current_timeindex (simfinger self) + 1)%Z ->
  get_camera_observation t self = (Raise (ValueError invalid_time_index), self).
Proof.
  intros Hen H1 H2. unfold get_camera_observation. run_method.
  rewrite Hen. simpl.
  destruct (Z.eqb_spec t (get_current_timeindex (simfinger self))); [lia|].
  destruct (Z.eqb_spec t (get_current_timeindex (simfinger self) + 1)); [lia|].
  reflexivity.
Qed.

(** A query never changes the platform. *)
Lemma get_object_pose_pure t self : snd (get_object_pose t self) = self.
Proof.
  unfold get_object_pose. run_method.
  destruct (t =? get_current_timeindex (simfinger self))%Z.
  - now destruct (_object_pose_t self).
  - now destruct (t =? get_current_timeindex (simfinger self) + 1)%Z.
Qed.

Lemma get_camera_observation_pure t self :
  snd (get_camera_observation t self) = self.
Proof.
  unfold get_camera_observation.
  erewrite bind_ok by reflexivity.
  destruct (enable_cameras self); simpl; [|reflexivity].
  erewrite bind_ok by reflexivity. simpl.
  destruct (t =? get_current_timeindex (simfinger self))%Z.
  - unfold getattr. now destruct (_camera_observation_t self).
  - destruct (t =? get_current_timeindex (simfinger self) + 1)%Z.
    + apply _get_current_camera_observation_pure.
    + reflexivity.
Qed.

(** *** What a call to [append_desired_action] leaves behind, also when
    the camera rig delivers a number of images other than three *)

Lemma append_desired_action_effect a self :
  let r := append_desired_action a self in
  enable_cameras (snd r) = enable_cameras self
  /\ is_Some (_object_pose_t (snd r))
  /\ (is_Some (_camera_observation_t self) ->
      is_Some (_camera_observation_t (snd r)))
  /\ (is_ok (fst r) = true -> enable_cameras self = true ->
      is_Some (_camera_observation_t (snd r))).
Proof.
  cbv zeta. unfold append_desired_action.
  erewrite bind_ok by apply _get_current_object_pose_unset.
  erewrite bind_ok by reflexivity.
  erewrite bind_ok by reflexivity.
  simpl enable_cameras.
  destruct (enable_cameras self) eqn:Hen.
  - unfold _get_current_camera_observation.
    run_platform.
    match goal with
    | |- context [for_items ?l ?f ?x] => destruct (for_items l f x) as [slots|e]
    end; simpl.
    + destruct (simfinger_append_desired_action a (simfinger self)) as [t w].
      simpl. rewrite ?Hen. simpl.
      rewrite for_items_all. simpl. rewrite ?Hen. auto.
    + rewrite ?Hen. repeat split; auto; discriminate.
  - erewrite bind_ok by reflexivity.
    run_platform.
    destruct (simfinger_append_desired_action a (simfinger self)) as [t w].
    simpl. rewrite ?Hen. simpl. rewrite ?Hen.
    repeat split; auto; discriminate.
Qed.

(** A rig that delivers more than three images stops the call before the
    step: the pose cache holds the new, unstamped sample, the robot has not
    moved and nothing is logged. *)
Lemma append_desired_action_overflow a self :
  enable_cameras self = true ->
  3 < length (get_images (simfinger self)) ->
  append_desired_action a self
  = (Raise (IndexError "list index out of range"),
     set__object_pose_t
       (ObjectPose.mk (fst (cube_get_state (simfinger self)))
                      (snd (cube_get_state (simfinger self))) None 1%float)
       self).
Proof.
  intros Hen Hlen. unfold append_desired_action.
  erewrite bind_ok by apply _get_current_object_pose_unset.
  erewrite bind_ok by reflexivity.
  erewrite bind_ok by reflexivity.
  simpl enable_cameras. rewrite Hen.
  erewrite bind_raise; [reflexivity|].
  erewrite bind_raise; [reflexivity|].
  now apply _get_current_camera_observation_overflow.
Qed.

(** *** [store_action_log] *)

Lemma store_action_log_unset filename disk self :
  _object_pose_t self = None ->
  store_action_log filename disk self
  = (Raise (AttributeError "_object_pose_t"), self).
Proof.
  intros Hnone. unfold store_action_log.
  erewrite bind_ok by reflexivity.
  erewrite bind_raise; [reflexivity|].
  rewrite get_object_pose_current by reflexivity. now rewrite Hnone.
Qed.

Lemma store_action_log_run filename disk self pose :
  _object_pose_t self = Some pose ->
  let log := ActionLog.set_final_object_pose
               (ActionLog.mk_pose (ObjectPose.position pose)
                                  (ObjectPose.orientation pose))
               (_action_log self) in
  store_action_log filename disk self
  = if writable disk filename
    then (Ok (mkDisk (writable disk)
                     (<[filename := Json.of_log log]> (files disk))),
          set__action_log log self)
    else (Raise (OSError filename), set__action_log log self).
Proof.
  intros Hpose. cbv zeta. unfold store_action_log.
  erewrite bind_ok by reflexivity.
  erewrite bind_ok.
  2: { rewrite get_object_pose_current by reflexivity. now rewrite Hpose. }
  erewrite bind_ok by reflexivity.
  erewrite bind_ok by reflexivity.
  destruct (writable disk filename); reflexivity.
Qed.

(** *** Runs of calls *)

Lemma run_call_keeps_cameras_flag c s :
  enable_cameras (fst (run_call c s)) = enable_cameras (fst s).
Proof.
  destruct s as [self disk]. destruct c as [a|t|t|f]; simpl.
  - apply append_desired_action_effect.
  - now rewrite get_object_pose_pure.
  - now rewrite get_camera_observation_pure.
  - destruct (_object_pose_t self) as [pose|] eqn:Hpose.
    + rewrite (store_action_log_run _ _ _ _ Hpose).
      now destruct (writable disk f).
    + now rewrite (store_action_log_unset _ _ _ Hpose).
Qed.

Lemma run_call_keeps_caches_filled c s :
  caches_filled (fst s) -> caches_filled (fst (run_call c s)).
Proof.
  destruct s as [self disk]. intros [Hpose Hcam]. simpl in Hpose, Hcam.
  destruct c as [a|t|t|f]; simpl.
  - destruct (append_desired_action_effect a self) as (Hen & Hp & Hc & _).
    split; [exact Hp|]. rewrite Hen. intros Hon. apply Hc, Hcam, Hon.
  - rewrite get_object_pose_pure. now split.
  - rewrite get_camera_observation_pure. now split.
  - destruct Hpose as [pose Hpose].
    rewrite (store_action_log_run _ _ _ _ Hpose).
    destruct (writable disk f); simpl; (split; [now exists pose | exact Hcam]).
Qed.

Lemma run_calls_keeps_cameras_flag cs s :
  enable_cameras (fst (run_calls cs s)) = enable_cameras (fst s).
Proof.
  revert s. induction cs as [|c cs IH]; intros s; simpl; [reflexivity|].
  rewrite IH. apply run_call_keeps_cameras_flag.
Qed.

Lemma run_calls_keeps_caches_filled cs s :
  caches_filled (fst s) -> caches_filled (fst (run_calls cs s)).
Proof.
  revert s. induction cs as [|c cs IH]; intros s Hs; simpl; [exact Hs|].
  apply IH, run_call_keeps_caches_filled, Hs.
Qed.

(** A call that returns fills both caches. *)
Lemma append_desired_action_fills a self t self' :
  append_desired_action a self = (Ok t, self') -> caches_filled self'.
Proof.
  intros Hrun.
  destruct (append_desired_action_effect a self) as (Hen & Hp & _ & Hc).
  rewrite Hrun in Hen, Hp, Hc. simpl in Hen, Hp, Hc.
  split; [exact Hp|]. rewrite Hen. intros Hon. now apply Hc.
Qed.

Lemma _get_current_camera_observation_ok (t : option Z) self :
  length (get_images (simfinger self)) <= 3 ->
  exists observation,
    _get_current_camera_observation t self = (Ok observation, self).
Proof.
  intros Hlen. unfold _get_current_camera_observation.
  destruct t as [t|]; unfold bind, gets, ret, lift;
    unfold TriCameraObservation.new; simpl TriCameraObservation.cameras;
    match goal with
    | |- context [CameraObservation.set_timestamp ?ts] =>
        destruct (for_items_fill_ok
                    (fun image c =>
                       CameraObservation.set_timestamp ts
                         (CameraObservation.set_image (Some image) c))
                    CameraObservation.new _ Hlen) as (slots & -> & _)
    end; eexists; reflexivity.
Qed.

(** *** Several actions in a row *)

Lemma append_all_run actions self :
  (enable_cameras self = true -> CameraContract) ->
  exists ts self',
    append_all actions self = (Ok ts, self')
    /\ length ts = length actions
    /\ ActionLog.actions (_action_log self')
       = ActionLog.actions (_action_log self) ++ zip_with entry_of ts actions
    /\ (actions <> [] -> caches_filled self').
Proof.
  revert self. induction actions as [|a rest IH]; intros self Hrig.
  - exists [], self. simpl. rewrite app_nil_r.
    do 3 (split; [reflexivity|]). intros Hne. now destruct Hne.
  - pose proof (append_desired_action_run a self
                  (fun Hon => @three_images _ (Hrig Hon) _)) as Hrun.
    cbv zeta in Hrun.
    match type of Hrun with
    | _ = (Ok ?t, ?p) => set (t1 := t) in *; set (self1 := p) in *
    end.
    destruct (IH self1 Hrig) as (ts & self' & Hrest & Hlen & Hlog & Hfill).
    exists (t1 :: ts), self'. simpl.
    erewrite bind_ok by exact Hrun.
    erewrite bind_ok by exact Hrest.
    split; [reflexivity|]. split; [|split].
    + simpl. now rewrite Hlen.
    + rewrite Hlog. subst self1. simpl. now rewrite <- app_assoc.
    + intros _. destruct rest as [|b rest'].
      * simpl in Hrest. injection Hrest as <- <-.
        apply (append_desired_action_fills a self t1). exact Hrun.
      * apply Hfill. discriminate.
Qed.

End PlatformFacts.

(** ** The platform facade: observation caches, time indices, the log *)

Section PlatformClaims.

Context `{Backend}.

Implicit Types (self : TriFingerPlatform) (a : Action.t) (t : Z).

(** C1.  In every state of the platform reached after a call of
    [append_desired_action] that returned, and for every integer [t]:
    [get_object_pose t] returns a pose when [t] is the current time index
    or the one after it, and raises the invalid-time-index [ValueError]
    for every other [t]; on a platform with cameras enabled,
    [get_camera_observation t] does the same (the query for the next
    index renders anew, from a rig of at most three images). *)
Theorem queries_served_at_current_and_next a self0 t0 self1 cs disk t :
  append_desired_action a self0 = (Ok t0, self1) ->
  let self := fst (run_calls cs (self1, disk)) in
  let current := get_current_timeindex (simfinger self) in
  ((t = current \/ t = (current + 1)%Z) ->
     exists pose, get_object_pose t self = (Ok pose, self))
  /\ (t <> current -> t <> (current + 1)%Z ->
      get_object_pose t self = (Raise (ValueError invalid_time_index), self))
  /\ (enable_cameras self0 = true ->
      (t = current ->
       exists observation,
         get_camera_observation t self = (Ok observation, self))
      /\ (t = (current + 1)%Z ->
          length (get_images (simfinger self)) <= 3 ->
          exists observation,
            get_camera_observation t self = (Ok observation, self))
      /\ (t <> current -> t <> (current + 1)%Z ->
          get_camera_observation t self
          = (Raise (ValueError invalid_time_index), self))).
Proof.
  intros Hfirst self current.
  assert (Hfilled : caches_filled self).
  { apply run_calls_keeps_caches_filled. simpl.
    exact (append_desired_action_fills _ _ _ _ Hfirst). }
  assert (Hflag : enable_cameras self = enable_cameras self0).
  { unfold self. rewrite run_calls_keeps_cameras_flag. simpl.
    pose proof (append_desired_action_effect a self0) as (Hen & _).
    now rewrite Hfirst in Hen. }
  destruct Hfilled as [[pose Hpose] Hcams].
  split; [|split].
  - intros [Ht|Ht].
    + exists pose. rewrite (get_object_pose_current _ _ Ht). now rewrite Hpose.
    + eexists. exact (get_object_pose_next _ _ Ht).
  - intros H1 H2. now apply get_object_pose_invalid.
  - intros Hon. rewrite <- Hflag in Hon. split; [|split].
    + intros Ht.
      destruct (Hcams Hon) as [observation Hobs]. exists observation.
      rewrite (get_camera_observation_current _ _ Hon Ht). now rewrite Hobs.
    + intros Ht Hrig.
      rewrite (get_camera_observation_next _ _ Hon Ht).
      now apply _get_current_camera_observation_ok.
    + intros H1 H2. now apply get_camera_observation_invalid.
Qed.

(** C2.  [append_desired_action] samples the object pose (and, with
    cameras enabled, the three camera images) in the state before the
    step, then steps the robot, then stamps what it sampled with the
    timestamp of the returned index [t] divided by 1000, and returns [t];
    after the call [get_object_pose t] returns that sample, whose
    confidence is 1.0. *)
Theorem append_samples_then_steps_then_stamps `{!StepperContract} a self :
  (enable_cameras self = true -> length (get_images (simfinger self)) = 3) ->
  let before := simfinger self in
  let t := fst (simfinger_append_desired_action a before) in
  let after := snd (simfinger_append_desired_action a before) in
  let stamp := Some (get_timestamp_ms t after / 1000)%float in
  let sample :=
    ObjectPose.mk (fst (cube_get_state before)) (snd (cube_get_state before))
      stamp 1%float in
  exists self',
    append_desired_action a self = (Ok t, self')
    /\ simfinger self' = after
    /\ _object_pose_t self' = Some sample
    /\ (enable_cameras self = true ->
        _camera_observation_t self'
        = Some (TriCameraObservation.mk
                  (map (fun image => CameraObservation.mk (Some image) stamp)
                       (get_images before))))
    /\ get_object_pose t self' = (Ok sample, self')
    /\ ObjectPose.confidence sample = 1%float.
Proof.
  intros Hrig. cbv zeta.
  pose proof (append_desired_action_run a self Hrig) as Hrun.
  cbv zeta in Hrun. unfold stepped_index, stepped_world in Hrun.
  eexists. split; [exact Hrun|]. simpl.
  split; [reflexivity|]. split; [reflexivity|]. split.
  - intros ->. reflexivity.
  - split; [|reflexivity].
    rewrite get_object_pose_current; [reflexivity|].
    simpl. symmetry. apply step_returns_current.
Qed.

(** C4.  Of two consecutive calls to [append_desired_action], the second
    returns a time index strictly greater than the first: under the
    stepper contract, exactly the first index plus one. *)
Theorem consecutive_time_indices_increase `{!StepperContract} a1 a2 self :
  (enable_cameras self = true -> CameraContract) ->
  exists t1 self1 t2 self2,
    append_desired_action a1 self = (Ok t1, self1)
    /\ append_desired_action a2 self1 = (Ok t2, self2)
    /\ (t1 < t2)%Z
    /\ t2 = (t1 + 1)%Z.
Proof.
  intros Hrig.
  pose proof (append_desired_action_run a1 self
                (fun Hon => @three_images _ (Hrig Hon) _)) as Hrun1.
  cbv zeta in Hrun1.
  match type of Hrun1 with
  | _ = (Ok ?t, ?p) => set (t1 := t) in *; set (self1 := p) in *
  end.
  pose proof (append_desired_action_run a2 self1
                (fun Hon => @three_images _ (Hrig Hon) _)) as Hrun2.
  cbv zeta in Hrun2.
  eexists _, _, _, _. split; [exact Hrun1|]. split; [exact Hrun2|].
  assert (Hnext : stepped_index a2 self1 = (t1 + 1)%Z).
  { unfold stepped_index. rewrite step_advances_by_one.
    subst self1. simpl. unfold stepped_world.
    now rewrite step_returns_current. }
  rewrite Hnext. split; [lia | reflexivity].
Qed.

(** C5.  On a platform constructed with [enable_cameras=False], whatever
    calls were made since, [get_camera_observation t] raises the
    cameras-not-enabled [RuntimeError] for every [t], the current index
    and the next one included. *)
Theorem cameras_disabled_for_every_index visualization pose cs disk t :
  let self := fst (run_calls cs (__init__ visualization pose false, disk)) in
  get_camera_observation t self
  = (Raise (RuntimeError cameras_not_enabled), self)
  /\ get_camera_observation (get_current_timeindex (simfinger self)) self
     = (Raise (RuntimeError cameras_not_enabled), self)
  /\ get_camera_observation (get_current_timeindex (simfinger self) + 1) self
     = (Raise (RuntimeError cameras_not_enabled), self).
Proof.
  intros self.
  assert (Hoff : enable_cameras self = false).
  { unfold self. now rewrite run_calls_keeps_cameras_flag. }
  repeat split; now apply get_camera_observation_disabled.
Qed.

(** C9.  After a call of [append_desired_action] the two branches of a
    query stamp in different units: the cached pose served for the current
    time index carries [get_timestamp_ms(t) / 1000] (seconds), the pose
    computed for the next index carries [get_timestamp_ms(t)] as it is
    (milliseconds); the camera observations do the same. *)
Theorem cached_and_fresh_timestamps_differ_in_unit `{!StepperContract} a self :
  (enable_cameras self = true -> CameraContract) ->
  exists t self' cached fresh,
    append_desired_action a self = (Ok t, self')
    /\ let current := get_current_timeindex (simfinger self') in
       let ms := fun t => get_timestamp_ms t (simfinger self') in
       t = current
       /\ get_object_pose current self' = (Ok cached, self')
       /\ ObjectPose.timestamp cached = Some (ms current / 1000)%float
       /\ get_object_pose (current + 1) self' = (Ok fresh, self')
       /\ ObjectPose.timestamp fresh = Some (ms (current + 1)%Z)
       /\ (enable_cameras self = true ->
           get_camera_observation current self'
           = (Ok (TriCameraObservation.mk
                    (map (fun image =>
                            CameraObservation.mk (Some image)
                              (Some (ms current / 1000)%float))
                         (get_images (simfinger self)))),
              self')
           /\ get_camera_observation (current + 1) self'
              = (Ok (TriCameraObservation.mk
                       (map (fun image =>
                               CameraObservation.mk (Some image)
                                 (Some (ms (current + 1)%Z)))
                            (get_images (simfinger self')))),
                 self')).
Proof.
  intros Hrig.
  pose proof (append_desired_action_run a self
                (fun Hon => @three_images _ (Hrig Hon) _)) as Hrun.
  cbv zeta in Hrun.
  match type of Hrun with
  | _ = (Ok ?t, ?p) => set (t1 := t) in *; set (self1 := p) in *
  end.
  assert (Hcur : get_current_timeindex (simfinger self1) = t1).
  { subst self1 t1. simpl. unfold stepped_world, stepped_index.
    apply step_returns_current. }
  eexists t1, self1, _, _. split; [exact Hrun|].
  cbv zeta. rewrite Hcur.
  split; [reflexivity|]. split.
  { rewrite get_object_pose_current by (symmetry; exact Hcur).
    subst self1; simpl. reflexivity. }
  split; [reflexivity|]. split.
  { apply get_object_pose_next. now rewrite Hcur. }
  split; [reflexivity|].
  intros Hon.
  assert (Hon1 : enable_cameras self1 = true) by (subst self1; exact Hon).
  split.
  - rewrite (get_camera_observation_current _ _ Hon1) by (symmetry; exact Hcur).
    subst self1; simpl. now rewrite Hon.
  - rewrite (get_camera_observation_next _ _ Hon1) by now rewrite Hcur.
    apply (_get_current_camera_observation_three (Some (t1 + 1)%Z)).
    apply (@three_images _ (Hrig Hon)).
Qed.

(** One time index in two units: the pose asked for index [t] just before
    the step that completes [t] is stamped [get_timestamp_ms(t)], the pose
    asked for the same [t] just after it is stamped
    [get_timestamp_ms(t) / 1000]. *)
Lemma one_index_served_in_two_units `{!StepperContract} a self :
  (enable_cameras self = true -> CameraContract) ->
  let t := stepped_index a self in
  let self' := snd (append_desired_action a self) in
  (exists fresh,
     get_object_pose t self = (Ok fresh, self)
     /\ ObjectPose.timestamp fresh = Some (get_timestamp_ms t (simfinger self)))
  /\ (exists cached,
        get_object_pose t self' = (Ok cached, self')
        /\ ObjectPose.timestamp cached
           = Some (get_timestamp_ms t (simfinger self') / 1000)%float).
Proof.
  intros Hrig t self'. split.
  - eexists. split.
    + apply get_object_pose_next. apply step_advances_by_one.
    + reflexivity.
  - pose proof (append_desired_action_run a self
                  (fun Hon => @three_images _ (Hrig Hon) _)) as Hrun.
    cbv zeta in Hrun. fold t in Hrun. subst self'. rewrite Hrun. simpl.
    eexists. split.
    + rewrite get_object_pose_current; [reflexivity|].
      simpl. symmetry. apply step_returns_current.
    + reflexivity.
Qed.

(** C10.  On a freshly constructed platform the caches are unset: the
    query for the current time index, although the index is a valid one,
    fails with an [AttributeError], for the object pose, for
    [store_action_log] (which makes that query, and then writes nothing)
    and for the camera observation of a platform with cameras enabled. *)
Theorem fresh_platform_has_no_cached_observation
    visualization pose enable_cameras filename disk :
  let self := __init__ visualization pose enable_cameras in
  let cam := __init__ visualization pose true in
  get_object_pose (get_current_timeindex (simfinger self)) self
  = (Raise (AttributeError "_object_pose_t"), self)
  /\ store_action_log filename disk self
     = (Raise (AttributeError "_object_pose_t"), self)
  /\ get_camera_observation (get_current_timeindex (simfinger cam)) cam
     = (Raise (AttributeError "_camera_observation_t"), cam).
Proof.
  cbv zeta. split; [|split].
  - now rewrite get_object_pose_current.
  - now apply store_action_log_unset.
  - now rewrite get_camera_observation_current.
Qed.

(** The entries of the serialized log, written out down to the numbers. *)
Lemma serialized_entries ts actions :
  map Json.of_action_entry (zip_with entry_of ts actions)
  = zip_with
      (fun t a =>
         Json.JObject
           [ ("t", Json.JInt t);
             ("torque", Json.JArray (map Json.JFloat (Action.torque a)));
             ("position", Json.JArray (map Json.JFloat (Action.position a)));
             ("position_kp",
              Json.JArray (map Json.JFloat (Action.position_kp a)));
             ("position_kd",
              Json.JArray (map Json.JFloat (Action.position_kd a))) ]%string)
      ts actions.
Proof.
  revert actions. induction ts as [|t ts IH]; intros [|a actions]; simpl;
    try reflexivity.
  now rewrite IH.
Qed.

(** C3.  After [N >= 1] calls of [append_desired_action] on a new
    platform, [store_action_log] writes a document whose [actions] array
    has exactly [N] entries, in call order; entry [i] holds the time index
    the [i]-th call returned and the torque, position, position_kp and
    position_kd arrays of the [i]-th action, value for value: each array
    of the document is the JSON array of the numbers of the action's
    array, one number per element, in order.  The document is the object
    with the keys [initial_robot_position], [initial_object_pose],
    [actions] and [final_object_pose], in this order. *)
Theorem action_log_round_trip
    visualization pose enable_cameras actions filename disk :
  actions <> [] ->
  writable disk filename = true ->
  (enable_cameras = true -> CameraContract) ->
  exists ts self' disk' self'' doc entries,
    append_all actions (__init__ visualization pose enable_cameras)
    = (Ok ts, self')
    /\ store_action_log filename disk self' = (Ok disk', self'')
    /\ files disk' !! filename = Some doc
    /\ length ts = length actions
    /\ length entries = length actions
    /\ entries
       = zip_with
           (fun t a =>
              Json.JObject
                [ ("t", Json.JInt t);
                  ("torque", Json.JArray (map Json.JFloat (Action.torque a)));
                  ("position",
                   Json.JArray (map Json.JFloat (Action.position a)));
                  ("position_kp",
                   Json.JArray (map Json.JFloat (Action.position_kp a)));
                  ("position_kd",
                   Json.JArray (map Json.JFloat (Action.position_kd a)))
                ]%string)
           ts actions
    /\ Json.field "actions" doc = Some (Json.JArray entries)
    /\ exists initial_robot_position initial_object_pose final_object_pose,
         doc = Json.JObject
                 [ ("initial_robot_position", initial_robot_position);
                   ("initial_object_pose", initial_object_pose);
                   ("actions", Json.JArray entries);
                   ("final_object_pose", final_object_pose) ]%string.
Proof.
  intros Hne Hw Hrig.
  destruct (append_all_run actions
              (__init__ visualization pose enable_cameras) Hrig)
    as (ts & self' & Hrun & Hlen & Hlog & Hfill).
  destruct (Hfill Hne) as [[cached Hcached] _].
  pose proof (store_action_log_run filename disk self' cached Hcached) as Hstore.
  cbv zeta in Hstore. rewrite Hw in Hstore.
  eexists ts, self', _, _, _, _.
  split; [exact Hrun|]. split; [exact Hstore|].
  split; [apply lookup_insert_eq|]. split; [exact Hlen|].
  split; [|split; [reflexivity|]].
  - rewrite length_zip_with. lia.
  - unfold Json.of_log. simpl. rewrite Hlog. simpl.
    rewrite serialized_entries.
    split; [reflexivity|]. eexists _, _, _. reflexivity.
Qed.

End PlatformClaims.

(** ** The robot connector: topology, deprecated names, teardown *)

Section ConnectorClaims.

Context `{FingerTypesData} `{Assets}.

(** The constructor on a finger type that the table knows. *)
Lemma connector_init_run enable_simulation finger_type enable_visualization
    process name urdf n :
  check_finger_type finger_type = Ok name ->
  get_finger_urdf name = Ok urdf ->
  get_number_of_fingers name = Ok n ->
  exists path out,
    base_finger.__init__ enable_simulation finger_type enable_visualization
      process
    = (Ok (mkBaseFinger enable_visualization name enable_simulation path
             (os_path_join [path; "urdf"; urdf]%string) n
             (fst (__init_joint_lists n)) (snd (__init_joint_lists n))
             (PinocchioUtils (os_path_join [path; "urdf"; urdf]%string)
                (snd (__init_joint_lists n)))),
       mkProcess
         (if enable_simulation
          then Some (if enable_visualization then GUI else DIRECT)
          else pybullet_client process)
         out
         (issued_warnings process
          ++ if is_deprecated name then [deprecation_message] else [])).
Proof.
  intros Hcheck Hurdf Hn. destruct process as [client printed warned].
  unfold base_finger.__init__, __set_finger_type_dependency.
  unfold bind, lift, try_except, ret. rewrite Hcheck.
  destruct (rospkg_get_path "robot_properties_fingers") as [path|e];
    simpl; destruct (is_deprecated name); simpl;
    rewrite Hurdf, Hn; simpl;
    destruct (__init_joint_lists n) as [links tips]; simpl;
    destruct enable_simulation, enable_visualization; simpl;
    rewrite ?app_nil_r; eexists _, _; reflexivity.
Qed.

(** C6.  For every valid finger type the constructed lists have the
    documented lengths: three link names and one tip-link name with one
    finger, nine link names and three tip-link names with three. *)
Theorem joint_lists_have_documented_lengths
    enable_simulation finger_type enable_visualization process name urdf n :
  check_finger_type finger_type = Ok name ->
  get_finger_urdf name = Ok urdf ->
  get_number_of_fingers name = Ok n ->
  exists self process',
    base_finger.__init__ enable_simulation finger_type enable_visualization
      process = (Ok self, process')
    /\ number_of_fingers self = n
    /\ (n = 1%Z ->
        length (link_names self) = 3 /\ length (tip_link_names self) = 1)
    /\ (n = 3%Z ->
        length (link_names self) = 9 /\ length (tip_link_names self) = 3).
Proof.
  intros Hcheck Hurdf Hn.
  destruct (connector_init_run enable_simulation finger_type
              enable_visualization process name urdf n Hcheck Hurdf Hn)
    as (path & out & Hrun).
  eexists _, _. split; [exact Hrun|]. simpl.
  split; [reflexivity|].
  split; intros ->; split; reflexivity.
Qed.

(** C7.  Constructing with a deprecated finger type (['single'] or
    ['tri']) is not an error: [warnings.warn] is called once, construction
    returns, and the link and tip-link names are those of the type that
    replaces it (['fingerone'], ['trifingerone']), which is constructed
    without a warning; with three fingers these are nine links and three
    tips. *)
Theorem deprecated_finger_type_warns_and_proceeds
    enable_simulation enable_visualization process
    deprecated replacement urdf urdf' n :
  (deprecated = "single"%string /\ replacement = "fingerone"%string)
  \/ (deprecated = "tri"%string /\ replacement = "trifingerone"%string) ->
  check_finger_type deprecated = Ok deprecated ->
  check_finger_type replacement = Ok replacement ->
  get_finger_urdf deprecated = Ok urdf ->
  get_finger_urdf replacement = Ok urdf' ->
  get_number_of_fingers deprecated = Ok n ->
  get_number_of_fingers replacement = Ok n ->
  exists self process' self0 process0,
    base_finger.__init__ enable_simulation deprecated enable_visualization
      process = (Ok self, process')
    /\ issued_warnings process'
       = issued_warnings process ++ [deprecation_message]
    /\ base_finger.__init__ enable_simulation replacement
         enable_visualization process = (Ok self0, process0)
    /\ issued_warnings process0 = issued_warnings process
    /\ link_names self = link_names self0
    /\ tip_link_names self = tip_link_names self0
    /\ (n = 3%Z ->
        length (link_names self) = 9 /\ length (tip_link_names self) = 3).
Proof.
  intros Hnames Hc Hc' Hu Hu' Hn Hn'.
  destruct (connector_init_run enable_simulation deprecated
              enable_visualization process _ _ _ Hc Hu Hn)
    as (path & out & Hrun).
  destruct (connector_init_run enable_simulation replacement
              enable_visualization process _ _ _ Hc' Hu' Hn')
    as (path' & out' & Hrun').
  eexists _, _, _, _.
  split; [exact Hrun|]. split.
  { simpl. destruct Hnames as [[-> _]|[-> _]]; reflexivity. }
  split; [exact Hrun'|]. split.
  { simpl. destruct Hnames as [[_ ->]|[_ ->]]; simpl; apply app_nil_r. }
  simpl. split; [reflexivity|]. split; [reflexivity|].
  intros ->. split; reflexivity.
Qed.

(** C8.  Disconnecting is idempotent: from every state of the connector
    and of the process, [_disconnect_from_simulation] returns without an
    error and leaves the simulation-enabled flag false (and, when the flag
    was set, no pybullet connection); a second call returns as well and
    changes nothing. *)
Theorem disconnect_is_idempotent (self : BaseFinger) process :
  exists self1 process1,
    _disconnect_from_simulation self process = (Ok self1, process1)
    /\ enable_simulation self1 = false
    /\ (enable_simulation self = true -> pybullet_client process1 = None)
    /\ _disconnect_from_simulation self1 process1 = (Ok self1, process1).
Proof.
  destruct self as [vis ft [|] rpp urdf n links tips kin];
    destruct process as [[mode|] out warned];
    eexists _, _; (split; [reflexivity|]); (split; [reflexivity|]);
    (split; [|reflexivity]); simpl; intros Hflag;
    first [reflexivity | discriminate Hflag].
Qed.

End ConnectorClaims.

(** ** The claims on the reference backend *)

Section OnTheReferenceBackend.

Import reference.

Lemma reference_stepper_contract : StepperContract.
Proof. split; intros a w; reflexivity. Qed.

Lemma reference_camera_contract : CameraContract.
Proof. split; intros w; reflexivity. Qed.

Lemma queries_served_witness :
  let self1 := snd (append_desired_action (push 2) (new_platform true)) in
  let self :=
    fst (run_calls [ GetObjectPose 7; AppendDesiredAction (push 1);
                     StoreActionLog "log.json" ]
           (self1, empty_disk)) in
  get_current_timeindex (simfinger self) = 2%Z
  /\ (exists pose, get_object_pose 2 self = (Ok pose, self))
  /\ (exists pose, get_object_pose 3 self = (Ok pose, self))
  /\ get_object_pose 1 self = (Raise (ValueError invalid_time_index), self)
  /\ get_object_pose 4 self = (Raise (ValueError invalid_time_index), self)
  /\ (exists observation,
        get_camera_observation 2 self = (Ok observation, self))
  /\ (exists observation,
        get_camera_observation 3 self = (Ok observation, self))
  /\ get_camera_observation 4 self
     = (Raise (ValueError invalid_time_index), self).
Proof.
  intros self1 self.
  pose proof (fun t =>
    queries_served_at_current_and_next (push 2) (new_platform true) 1%Z self1
      [ GetObjectPose 7; AppendDesiredAction (push 1);
        StoreActionLog "log.json" ] empty_disk t eq_refl) as Hall.
  cbv zeta in Hall. fold self in Hall.
  split; [reflexivity|].
  split; [apply (Hall 2%Z); left; reflexivity|].
  split; [apply (Hall 3%Z); right; reflexivity|].
  split; [apply (Hall 1%Z); discriminate|].
  split; [apply (Hall 4%Z); discriminate|].
  split.
  { destruct (Hall 2%Z) as (_ & _ & Hcam).
    destruct (Hcam eq_refl) as (Hcur & _). exact (Hcur eq_refl). }
  split.
  { destruct (Hall 3%Z) as (_ & _ & Hcam).
    destruct (Hcam eq_refl) as (_ & Hnext & _).
    apply (Hnext eq_refl). simpl. lia. }
  destruct (Hall 4%Z) as (_ & _ & Hcam).
  destruct (Hcam eq_refl) as (_ & _ & Hbad). apply Hbad; discriminate.
Defined.

Lemma append_samples_witness :
  exists self',
    append_desired_action (push 2) (new_platform true) = (Ok 1%Z, self')
    /\ cube_get_state (simfinger self') = ([2; 2; 3]%float, [0; 0; 0; 1]%float)
    /\ get_object_pose 1 self'
       = (Ok (ObjectPose.mk [0; 0; 1]%float [0; 0; 0; 1]%float
                (Some (4 / 1000)%float) 1%float),
          self')
    /\ _camera_observation_t self'
       = Some (TriCameraObservation.mk
                 (map (fun image =>
                         CameraObservation.mk (Some image) (Some (4 / 1000)%float))
                      [60; 180; 300]%Z)).
Proof.
  destruct (@append_samples_then_steps_then_stamps backend
              reference_stepper_contract (push 2) (new_platform true)
              (fun _ => eq_refl))
    as (self' & Hrun & Hworld & _ & Hcams & Hpose & _).
  exists self'. split; [exact Hrun|]. split.
  - rewrite Hworld. reflexivity.
  - split; [exact Hpose | exact (Hcams eq_refl)].
Defined.

Lemma action_log_round_trip_witness :
  exists self' disk' self'',
    append_all
      [ Action.mk [2; 0; 0] [0.5; 1; 1.5] [8; 8; 4] [0.25; 0.25; 0.125];
        Action.mk [1; 0; -1] [0; -0.5; -1] [4; 2; 2] [0.5; 0.5; 0.5] ]%float
      (new_platform false)
    = (Ok [1; 2]%Z, self')
    /\ store_action_log "log.json" empty_disk self' = (Ok disk', self'')
    /\ exists doc initial_robot_position initial_object_pose final_object_pose,
         files disk' !! "log.json"%string = Some doc
         /\ doc
            = Json.JObject
                [ ("initial_robot_position", initial_robot_position);
                  ("initial_object_pose", initial_object_pose);
                  ("actions",
                   Json.JArray
                     [ Json.JObject
                         [ ("t", Json.JInt 1);
                           ("torque",
                            Json.JArray
                              [ Json.JFloat 2; Json.JFloat 0; Json.JFloat 0 ]);
                           ("position",
                            Json.JArray
                              [ Json.JFloat 0.5; Json.JFloat 1;
                                Json.JFloat 1.5 ]);
                           ("position_kp",
                            Json.JArray
                              [ Json.JFloat 8; Json.JFloat 8; Json.JFloat 4 ]);
                           ("position_kd",
                            Json.JArray
                              [ Json.JFloat 0.25; Json.JFloat 0.25;
                                Json.JFloat 0.125 ]) ]%string;
                       Json.JObject
                         [ ("t", Json.JInt 2);
                           ("torque",
                            Json.JArray
                              [ Json.JFloat 1; Json.JFloat 0;
                                Json.JFloat (-1) ]);
                           ("position",
                            Json.JArray
                              [ Json.JFloat 0; Json.JFloat (-0.5);
                                Json.JFloat (-1) ]);
                           ("position_kp",
                            Json.JArray
                              [ Json.JFloat 4; Json.JFloat 2; Json.JFloat 2 ]);
                           ("position_kd",
                            Json.JArray
                              [ Json.JFloat 0.5; Json.JFloat 0.5;
                                Json.JFloat 0.5 ]) ]%string ]);
                  ("final_object_pose", final_object_pose) ]%string.
Proof.
  destruct (@action_log_round_trip backend false (Some cube_pose) false
              [ Action.mk [2; 0; 0] [0.5; 1; 1.5] [8; 8; 4] [0.25; 0.25; 0.125];
                Action.mk [1; 0; -1] [0; -0.5; -1] [4; 2; 2] [0.5; 0.5; 0.5]
              ]%float "log.json" empty_disk)
    as (ts & self' & disk' & self'' & doc & entries & Hrun & Hstore & Hfile
        & _ & _ & Hentries & _ & robot & object & final & Hdoc).
  - discriminate.
  - reflexivity.
  - discriminate.
  - assert (Hts : ts = [1; 2]%Z).
    { pose proof (f_equal fst Hrun) as Hfst.
      vm_compute in Hfst. now injection Hfst as <-. }
    subst ts. exists self', disk', self''.
    split; [exact Hrun|]. split; [exact Hstore|].
    exists doc, robot, object, final. split; [exact Hfile|].
    rewrite Hdoc, Hentries. reflexivity.
Defined.

Lemma consecutive_time_indices_witness :
  exists self1 self2,
    append_desired_action (push 2) (new_platform true) = (Ok 1%Z, self1)
    /\ append_desired_action (push 1) self1 = (Ok 2%Z, self2).
Proof.
  destruct (@consecutive_time_indices_increase backend
              reference_stepper_contract (push 2) (push 1) (new_platform true)
              (fun _ => reference_camera_contract))
    as (t1 & self1 & t2 & self2 & Hrun1 & Hrun2 & _ & Hnext).
  assert (Ht1 : t1 = 1%Z).
  { pose proof (f_equal fst Hrun1) as Hfst.
    vm_compute in Hfst. now injection Hfst as <-. }
  subst t1 t2. exists self1, self2. split; [exact Hrun1 | exact Hrun2].
Defined.

Lemma timestamp_units_witness :
  exists self' cached fresh,
    append_desired_action (push 2) (new_platform false) = (Ok 1%Z, self')
    /\ get_object_pose 1 self' = (Ok cached, self')
    /\ ObjectPose.timestamp cached = Some (4 / 1000)%float
    /\ get_object_pose 2 self' = (Ok fresh, self')
    /\ ObjectPose.timestamp fresh = Some 8%float.
Proof.
  destruct (@cached_and_fresh_timestamps_differ_in_unit backend
              reference_stepper_contract (push 2) (new_platform false)
              (fun _ => reference_camera_contract))
    as (t & self' & cached & fresh & Hrun & Hrest).
  cbv zeta in Hrest.
  destruct Hrest as (Hcur & Hcached & Hstamp & Hfresh & Hstamp' & _).
  assert (Ht : t = 1%Z).
  { pose proof (f_equal fst Hrun) as Hfst.
    vm_compute in Hfst. now injection Hfst as <-. }
  rewrite <- Hcur in Hcached, Hstamp, Hfresh, Hstamp'. clear Hcur. subst t.
  exists self', cached, fresh.
  split; [exact Hrun|]. split; [exact Hcached|]. split; [exact Hstamp|].
  split; [exact Hfresh | exact Hstamp'].
Defined.

(** Time index 2 on the reference backend: 8 (milliseconds) when asked
    ahead of the step, 8 / 1000 (seconds) when asked after it. *)
Example index_two_in_two_units :
  let before := snd (append_desired_action (push 2) (new_platform false)) in
  let after := snd (append_desired_action (push 1) before) in
  option_map ObjectPose.timestamp
    (match fst (get_object_pose 2 before) with Ok p => Some p | Raise _ => None end)
  = Some (Some 8%float)
  /\ option_map ObjectPose.timestamp
       (match fst (get_object_pose 2 after) with Ok p => Some p | Raise _ => None end)
     = Some (Some (8 / 1000)%float).
Proof. split; vm_compute; reflexivity. Qed.

Lemma joint_lists_witness :
  exists self process',
    base_finger.__init__ true "fingerone" false fresh_process
    = (Ok self, process')
    /\ length (link_names self) = 3 /\ length (tip_link_names self) = 1.
Proof.
  destruct (@joint_lists_have_documented_lengths finger_types assets
              true "fingerone" false fresh_process
              "fingerone" "finger.urdf" 1%Z eq_refl eq_refl eq_refl)
    as (self & process' & Hrun & _ & Hone & _).
  exists self, process'. split; [exact Hrun | exact (Hone eq_refl)].
Defined.

Lemma deprecated_finger_type_witness :
  exists self process' self0 process0,
    base_finger.__init__ true "tri" false fresh_process = (Ok self, process')
    /\ issued_warnings process' = [deprecation_message]
    /\ base_finger.__init__ true "trifingerone" false fresh_process
       = (Ok self0, process0)
    /\ issued_warnings process0 = []
    /\ link_names self = link_names self0
    /\ tip_link_names self = tip_link_names self0
    /\ length (link_names self) = 9 /\ length (tip_link_names self) = 3.
Proof.
  destruct (@deprecated_finger_type_warns_and_proceeds finger_types assets
              true false fresh_process "tri" "trifingerone"
              "trifinger.urdf" "trifinger.urdf" 3%Z
              (or_intror (conj eq_refl eq_refl))
              eq_refl eq_refl eq_refl eq_refl eq_refl eq_refl)
    as (self & process' & self0 & process0
        & Hrun & Hwarn & Hrun0 & Hwarn0 & Hlinks & Htips & Hthree).
  exists self, process', self0, process0.
  split; [exact Hrun|]. split; [exact Hwarn|]. split; [exact Hrun0|].
  split; [exact Hwarn0|]. split; [exact Hlinks|]. split; [exact Htips|].
  exact (Hthree eq_refl).
Defined.

End OnTheReferenceBackend.

(** ** Loading the robot model: the dictionary of link indices *)

Import robot_urdf.

Section LoaderFacts.

Context `{FingerTypesData} `{Assets} `{Pybullet}.

Implicit Types (self : BaseFinger) (assigned : attributes) (server : Server)
  (body index : Z) (name key : string) (d : gmap string Z).

(** The dictionary after the first [m] joints. *)
Lemma link_name_to_index_prefix body server (m : nat) name index :
  foldl (fun d joint_idx =>
           <[getJointInfo body joint_idx server := joint_idx]> d)
        {[ getBodyInfo body server := (-1)%Z ]}
        (map Z.of_nat (seq 0 m)) !! name = Some index
  <-> ((0 <= index < Z.of_nat m)%Z
       /\ getJointInfo body index server = name
       /\ forall k, (index < k < Z.of_nat m)%Z ->
                    getJointInfo body k server <> name)
      \/ (index = (-1)%Z
          /\ getBodyInfo body server = name
          /\ forall k, (0 <= k < Z.of_nat m)%Z ->
                       getJointInfo body k server <> name).
Proof.
  revert index. induction m as [|m IH]; intros index.
  - simpl. rewrite lookup_singleton. split.
    + case_decide as Hbase; [|discriminate].
      intros [= <-]. right. repeat split; [exact Hbase|]. intros k Hk. lia.
    + intros [(Hrange & _)|(-> & Hbase & _)]; [lia|].
      now rewrite decide_True.
  - rewrite seq_S, map_app, foldl_app. simpl.
    rewrite lookup_insert. case_decide as Hlast.
    + split.
      * intros [= <-]. left. repeat split; [lia | lia | exact Hlast|].
        intros k Hk. lia.
      * intros [(Hrange & Hname & Hlater)|(-> & _ & Hnone)].
        -- destruct (decide (index = Z.of_nat m)) as [->|Hne]; [reflexivity|].
           exfalso. apply (Hlater (Z.of_nat m)); [lia | exact Hlast].
        -- exfalso. apply (Hnone (Z.of_nat m)); [lia | exact Hlast].
    + rewrite IH. split.
      * intros [(Hrange & Hname & Hlater)|(-> & Hbase & Hnone)].
        -- left. repeat split; [lia | lia | exact Hname|].
           intros k Hk. destruct (decide (k = Z.of_nat m)) as [->|Hne].
           ++ exact Hlast.
           ++ apply Hlater. lia.
        -- right. repeat split; [exact Hbase|].
           intros k Hk. destruct (decide (k = Z.of_nat m)) as [->|Hne].
           ++ exact Hlast.
           ++ apply Hnone. lia.
      * intros [(Hrange & Hname & Hlater)|(-> & Hbase & Hnone)].
        -- left. destruct (decide (index = Z.of_nat m)) as [->|Hne].
           ++ now destruct Hlast.
           ++ repeat split; [lia | lia | exact Hname|].
              intros k Hk. apply Hlater. lia.
        -- right. repeat split; [exact Hbase|].
           intros k Hk. apply Hnone. lia.
Qed.

(** What the finished dictionary holds for a name: the last joint that
    moves a link of that name, else [-1] when it is the base link's name,
    else nothing. *)
Lemma link_name_to_index_lookup body server name index :
  link_name_to_index body server !! name = Some index
  <-> ((0 <= index < getNumJoints body server)%Z
       /\ getJointInfo body index server = name
       /\ forall k, (index < k < getNumJoints body server)%Z ->
                    getJointInfo body k server <> name)
      \/ (index = (-1)%Z
          /\ getBodyInfo body server = name
          /\ forall k, (0 <= k < getNumJoints body server)%Z ->
                       getJointInfo body k server <> name).
Proof.
  unfold link_name_to_index, range. rewrite link_name_to_index_prefix.
  destruct (Z.le_gt_cases 0 (getNumJoints body server)) as [Hpos|Hneg].
  - now rewrite Z2Nat.id by exact Hpos.
  - replace (Z.to_nat (getNumJoints body server)) with 0%nat by lia.
    simpl. split.
    + intros [(Hrange & _)|(-> & Hbase & _)]; [lia|].
      right. repeat split; [exact Hbase|]. intros k Hk. lia.
    + intros [(Hrange & _)|(-> & Hbase & _)]; [lia|].
      right. repeat split; [exact Hbase|]. intros k Hk. lia.
Qed.

Lemma link_name_to_index_prefix_known body server (m : nat) name :
  is_Some
    (foldl (fun d joint_idx =>
              <[getJointInfo body joint_idx server := joint_idx]> d)
           {[ getBodyInfo body server := (-1)%Z ]}
           (map Z.of_nat (seq 0 m)) !! name)
  <-> getBodyInfo body server = name
      \/ exists joint, (0 <= joint < Z.of_nat m)%Z
                       /\ getJointInfo body joint server = name.
Proof.
  induction m as [|m IH].
  - simpl. rewrite lookup_singleton. case_decide as Hbase; split.
    + intros _. now left.
    + intros _. now eexists.
    + intros [x Hx]. discriminate Hx.
    + intros [Hb|(joint & Hrange & _)]; [contradiction | lia].
  - rewrite seq_S, map_app, foldl_app. simpl.
    rewrite lookup_insert. case_decide as Hlast.
    + split; [|intros _; now eexists].
      intros _. right. exists (Z.of_nat m). split; [lia | exact Hlast].
    + rewrite IH. split.
      * intros [Hb|(joint & Hrange & Hname)]; [now left|].
        right. exists joint. split; [lia | exact Hname].
      * intros [Hb|(joint & Hrange & Hname)]; [now left|].
        right. exists joint. split; [|exact Hname].
        destruct (decide (joint = Z.of_nat m)) as [->|Hne]; [contradiction | lia].
Qed.

(** The dictionary knows exactly the links of the body. *)
Lemma link_name_to_index_is_link body server name :
  is_Some (link_name_to_index body server !! name) <-> is_link body server name.
Proof.
  unfold link_name_to_index, range, is_link.
  rewrite link_name_to_index_prefix_known.
  destruct (Z.le_gt_cases 0 (getNumJoints body server)) as [Hpos|Hneg].
  - now rewrite Z2Nat.id by exact Hpos.
  - replace (Z.to_nat (getNumJoints body server)) with 0%nat by lia.
    split; (intros [Hb|(joint & Hrange & _)]; [now left | lia]).
Qed.

(** *** The list comprehension over the dictionary *)

Lemma lookup_all_returned d (names : list string) indices :
  lookup_all d names = Returned indices ->
  Forall2 (fun name index => d !! name = Some index) names indices.
Proof.
  revert indices. induction names as [|name rest IH]; intros indices; simpl.
  - intros [= <-]. constructor.
  - destruct (d !! name) as [index|] eqn:Hd; [|discriminate].
    destruct (lookup_all d rest) as [found|e]; [|discriminate].
    intros [= <-]. constructor; [exact Hd | now apply IH].
Qed.

Lemma lookup_all_raised d (names : list string) e :
  lookup_all d names = Raised e ->
  exists found key rest,
    e = KeyError key
    /\ names = found ++ key :: rest
    /\ d !! key = None
    /\ Forall (fun name => is_Some (d !! name)) found.
Proof.
  induction names as [|name rest IH]; simpl; [discriminate|].
  destruct (d !! name) as [index|] eqn:Hd.
  - destruct (lookup_all d rest) as [found|e'] eqn:Hrest; [discriminate|].
    intros [= <-].
    destruct (IH eq_refl) as (found & key & rest' & -> & -> & Hkey & Hfound).
    exists (name :: found), key, rest'.
    repeat split; [exact Hkey|]. constructor; [eexists; exact Hd | exact Hfound].
  - intros [= <-]. exists [], name, rest. repeat split; [exact Hd | constructor].
Qed.

Lemma lookup_all_known d (names : list string) :
  Forall (fun name => is_Some (d !! name)) names ->
  exists indices, lookup_all d names = Returned indices.
Proof.
  induction 1 as [|name rest [index Hd] _ [indices IH]]; simpl.
  - now eexists.
  - rewrite Hd, IH. now eexists.
Qed.

(** *** The comprehension over the dictionary of a body *)

Lemma lookup_all_indexes body server (names : list string) indices :
  lookup_all (link_name_to_index body server) names = Returned indices ->
  Forall2 (indexes body server) names indices.
Proof.
  intros Hfound. apply lookup_all_returned in Hfound.
  eapply Forall2_impl; [exact Hfound|].
  intros name index Hd. apply link_name_to_index_lookup in Hd.
  destruct Hd as [(Hrange & Hname & _)|(-> & Hbase & _)].
  - right. now split.
  - left. now split.
Qed.

Lemma lookup_all_greatest body server (names : list string) indices :
  lookup_all (link_name_to_index body server) names = Returned indices ->
  Forall2 (fun name index =>
             ((0 <= index < getNumJoints body server)%Z
              /\ getJointInfo body index server = name
              /\ forall joint,
                   (0 <= joint < getNumJoints body server)%Z ->
                   getJointInfo body joint server = name ->
                   (joint <= index)%Z)
             \/ (index = (-1)%Z
                 /\ getBodyInfo body server = name
                 /\ forall joint,
                      (0 <= joint < getNumJoints body server)%Z ->
                      getJointInfo body joint server <> name))
          names indices.
Proof.
  intros Hfound. apply lookup_all_returned in Hfound.
  eapply Forall2_impl; [exact Hfound|].
  intros name index Hd.
  apply link_name_to_index_lookup in Hd.
  destruct Hd as [(Hindex & Hname & Hlater)|(-> & Hbase & Hnone)].
  - left. split; [exact Hindex|]. split; [exact Hname|].
    intros joint Hrange Hjoint.
    destruct (Z.le_gt_cases joint index) as [Hle|Hgt]; [exact Hle|].
    exfalso. apply (Hlater joint); [lia | exact Hjoint].
  - right. split; [reflexivity|]. split; [exact Hbase | exact Hnone].
Qed.

Lemma lookup_all_links body server (names : list string) indices :
  lookup_all (link_name_to_index body server) names = Returned indices ->
  Forall (is_link body server) names.
Proof.
  intros Hfound. apply lookup_all_returned in Hfound.
  eapply Forall2_Forall_l; [exact Hfound|].
  apply Forall_forall. intros index _ name Hd.
  apply link_name_to_index_is_link. now exists index.
Qed.

End LoaderFacts.

(** ** Loading the robot model: what the connector ends up with *)

Section LoaderProperties.

Context `{FingerTypesData} `{Assets} `{Pybullet}.

Implicit Types (self : BaseFinger) (assigned : attributes) (server : Server)
  (body index : Z) (name key : string).

(** X1.  When [_load_robot_urdf] returns on an enabled connector, all four
    attributes are assigned, the joint indices are the link indices, there
    is one index per name, and every index is an index of its name: the
    index of a joint that moves a link of that name, or [-1] for the base
    link. *)
Theorem loaded_indices_point_at_their_links
    self assigned server assigned' server' :
  enable_simulation self = true ->
  _load_robot_urdf self assigned server = (Returned tt, assigned', server') ->
  exists body links tips,
    finger_id assigned' = Some body
    /\ pybullet_link_indices assigned' = Some links
    /\ pybullet_tip_link_indices assigned' = Some tips
    /\ pybullet_joint_indices assigned' = Some links
    /\ Forall2 (indexes body server') (link_names self) links
    /\ Forall2 (indexes body server') (tip_link_names self) tips.
Proof.
  intros Hon. unfold _load_robot_urdf. rewrite Hon. simpl.
  destruct (load_call self server) as [[body|e] server1]; [|discriminate].
  destruct (lookup_all _ (link_names self)) as [links|e] eqn:Hlinks;
    [|discriminate].
  destruct (lookup_all _ (tip_link_names self)) as [tips|e] eqn:Htips;
    [|discriminate].
  intros [= <- <-]. exists body, links, tips. simpl.
  do 4 (split; [reflexivity|]).
  split; eapply lookup_all_indexes; eassumption.
Qed.

(** X2.  The index assigned to a link name is the greatest index of a
    joint that moves a link of that name: it is itself such a joint, and
    no joint of that name has a greater index, so where two joints move
    links of one name the later joint's index is assigned, and a joint
    that moves a link named as the base link takes the name from the base
    link.  The index is [-1] only for the name of the base link when no
    joint moves a link of that name. *)
Theorem later_joint_takes_the_name self assigned server assigned' server' :
  enable_simulation self = true ->
  _load_robot_urdf self assigned server = (Returned tt, assigned', server') ->
  exists body links tips,
    finger_id assigned' = Some body
    /\ pybullet_link_indices assigned' = Some links
    /\ pybullet_tip_link_indices assigned' = Some tips
    /\ Forall2 (fun name index =>
                  ((0 <= index < getNumJoints body server')%Z
                   /\ getJointInfo body index server' = name
                   /\ forall joint,
                        (0 <= joint < getNumJoints body server')%Z ->
                        getJointInfo body joint server' = name ->
                        (joint <= index)%Z)
                  \/ (index = (-1)%Z
                      /\ getBodyInfo body server' = name
                      /\ forall joint,
                           (0 <= joint < getNumJoints body server')%Z ->
                           getJointInfo body joint server' <> name))
               (link_names self ++ tip_link_names self) (links ++ tips).
Proof.
  intros Hon. unfold _load_robot_urdf. rewrite Hon. simpl.
  destruct (load_call self server) as [[body|e] server1]; [|discriminate].
  destruct (lookup_all _ (link_names self)) as [links|e] eqn:Hlinks;
    [|discriminate].
  destruct (lookup_all _ (tip_link_names self)) as [tips|e] eqn:Htips;
    [|discriminate].
  intros [= <- <-]. exists body, links, tips. simpl.
  do 3 (split; [reflexivity|]).
  apply Forall2_app; eapply lookup_all_greatest; eassumption.
Qed.

(** X3.  A link name that the loaded body does not have makes
    [_load_robot_urdf] raise a [KeyError] for such a name; the body stays
    loaded and [finger_id] is assigned, but none of the index attributes
    is. *)
Theorem unknown_link_name_raises_key_error
    self assigned server body server' name :
  enable_simulation self = true ->
  load_call self server = (Ok body, server') ->
  name ∈ link_names self ->
  ~ is_link body server' name ->
  exists key,
    _load_robot_urdf self assigned server
    = (Raised (KeyError key), set_finger_id body assigned, server')
    /\ key ∈ link_names self
    /\ ~ is_link body server' key.
Proof.
  intros Hon Hload Hin Hunknown.
  unfold _load_robot_urdf. rewrite Hon, Hload. simpl.
  destruct (lookup_all _ (link_names self)) as [links|e] eqn:Hlinks.
  - exfalso. apply lookup_all_returned in Hlinks.
    apply Hunknown, link_name_to_index_is_link.
    apply list_elem_of_lookup in Hin as [i Hi].
    destruct (Forall2_lookup_l _ _ _ _ _ Hlinks Hi) as (index & _ & Hd).
    now exists index.
  - destruct (lookup_all_raised _ _ _ Hlinks)
      as (found & key & rest & -> & Hnames & Hkey & _).
    exists key. split; [reflexivity|]. split.
    + rewrite Hnames. apply elem_of_app. right. apply elem_of_cons. now left.
    + intros Hlink. apply link_name_to_index_is_link in Hlink.
      rewrite Hkey in Hlink. now destruct Hlink.
Qed.

(** X4.  When the link names are all links of the body but a tip-link name
    is not, [_load_robot_urdf] raises a [KeyError] for such a name after it
    has assigned the link indices: the tip-link indices and the joint
    indices are left unassigned. *)
Theorem unknown_tip_link_name_raises_key_error
    self assigned server body server' name :
  enable_simulation self = true ->
  load_call self server = (Ok body, server') ->
  Forall (is_link body server') (link_names self) ->
  name ∈ tip_link_names self ->
  ~ is_link body server' name ->
  exists key links,
    _load_robot_urdf self assigned server
    = (Raised (KeyError key),
       set_pybullet_link_indices links (set_finger_id body assigned),
       server')
    /\ length links = length (link_names self)
    /\ key ∈ tip_link_names self
    /\ ~ is_link body server' key.
Proof.
  intros Hon Hload Hlinks Hin Hunknown.
  unfold _load_robot_urdf. rewrite Hon, Hload. simpl.
  destruct (lookup_all_known (link_name_to_index body server') (link_names self))
    as [links Hfound].
  { eapply Forall_impl; [exact Hlinks|].
    intros link Hlink. now apply link_name_to_index_is_link. }
  rewrite Hfound.
  destruct (lookup_all _ (tip_link_names self)) as [tips|e] eqn:Htips.
  - exfalso. apply lookup_all_returned in Htips.
    apply Hunknown, link_name_to_index_is_link.
    apply list_elem_of_lookup in Hin as [i Hi].
    destruct (Forall2_lookup_l _ _ _ _ _ Htips Hi) as (index & _ & Hd).
    now exists index.
  - destruct (lookup_all_raised _ _ _ Htips)
      as (found & key & rest & -> & Hnames & Hkey & _).
    exists key, links. split; [reflexivity|]. split; [|split].
    + symmetry. eapply Forall2_length, lookup_all_returned, Hfound.
    + rewrite Hnames. apply elem_of_app. right. apply elem_of_cons. now left.
    + intros Hlink. apply link_name_to_index_is_link in Hlink.
      rewrite Hkey in Hlink. now destruct Hlink.
Qed.

(** X5.  Once the body is loaded, [_load_robot_urdf] returns exactly when
    every link name and every tip-link name of the connector is a link of
    the body. *)
Theorem load_returns_iff_names_are_links self assigned server body server' :
  enable_simulation self = true ->
  load_call self server = (Ok body, server') ->
  fst (fst (_load_robot_urdf self assigned server)) = Returned tt
  <-> Forall (is_link body server') (link_names self ++ tip_link_names self).
Proof.
  intros Hon Hload.
  unfold _load_robot_urdf. rewrite Hon, Hload. simpl.
  rewrite Forall_app. split.
  - destruct (lookup_all _ (link_names self)) as [links|e] eqn:Hlinks;
      [|discriminate].
    destruct (lookup_all _ (tip_link_names self)) as [tips|e] eqn:Htips;
      [|discriminate].
    intros _. split; eapply lookup_all_links; eassumption.
  - intros [Hlinks Htips].
    destruct (lookup_all_known (link_name_to_index body server')
                (link_names self)) as [links ->].
    { eapply Forall_impl; [exact Hlinks|].
      intros link Hlink. now apply link_name_to_index_is_link. }
    destruct (lookup_all_known (link_name_to_index body server')
                (tip_link_names self)) as [tips ->].
    { eapply Forall_impl; [exact Htips|].
      intros link Hlink. now apply link_name_to_index_is_link. }
    reflexivity.
Qed.

(** X6.  After [_disconnect_from_simulation] the connector no longer
    reaches the physics server: [_load_robot_urdf] returns at once, loads
    nothing and assigns nothing. *)
Theorem load_after_disconnect_is_skipped
    self process self1 process1 assigned server :
  _disconnect_from_simulation self process = (Ok self1, process1) ->
  _load_robot_urdf self1 assigned server = (Returned tt, assigned, server).
Proof.
  intros Hdown.
  assert (Hoff : enable_simulation self1 = false).
  { revert Hdown. unfold _disconnect_from_simulation.
    destruct (enable_simulation self) eqn:Hflag.
    - unfold bind, pybullet_isConnected, gets, ret.
      destruct (bool_decide (is_Some (pybullet_client process))); simpl.
      + unfold pybullet_disconnect.
        destruct (pybullet_client process); [|discriminate].
        now intros [= <- _].
      + now intros [= <- _].
    - unfold ret. now intros [= <- _]. }
  unfold _load_robot_urdf. now rewrite Hoff.
Qed.

End LoaderProperties.

(** ** More on the facade: the caches and the log over a session *)

Import sessions.

Section SessionFacts.

Context `{Backend}.

Implicit Types (self : TriFingerPlatform) (a : Action.t) (t : Z).

(** A loop of item assignments keeps the length of the list. *)
Lemma for_items_length {A B} (items : list B)
    (body : B -> list A -> result (list A)) (xs ys : list A) :
  (forall b l l', body b l = Ok l' -> length l' = length l) ->
  for_items items body xs = Ok ys -> length ys = length xs.
Proof.
  intros Hbody. revert xs. induction items as [|b rest IH]; intros xs; simpl.
  - now intros [= <-].
  - destruct (body b xs) as [xs'|e] eqn:Hb; [|discriminate].
    intros Hrest. rewrite (IH _ Hrest). exact (Hbody _ _ _ Hb).
Qed.

Lemma setitem_with_length {A} (i : nat) (f : A -> A) (xs ys : list A) :
  setitem_with i f xs = Ok ys -> length ys = length xs.
Proof.
  unfold setitem_with. destruct (xs !! i); [|discriminate].
  intros [= <-]. apply length_insert.
Qed.

(** An observation that the sampler returns has three cameras. *)
Lemma _get_current_camera_observation_three_cameras (t : option Z) self
    observation self' :
  _get_current_camera_observation t self = (Ok observation, self') ->
  length (TriCameraObservation.cameras observation) = 3.
Proof.
  unfold _get_current_camera_observation.
  destruct t as [t|]; unfold bind, gets, ret, lift;
    unfold TriCameraObservation.new; simpl TriCameraObservation.cameras;
    match goal with
    | |- context [for_items ?l ?f ?x] =>
        destruct (for_items l f x) as [slots|e] eqn:Hloop
    end; try discriminate;
    intros [= <- _]; simpl;
    (apply for_items_length in Hloop;
     [exact Hloop | intros [i image] l l'; apply setitem_with_length]).
Qed.

(** The caches after a call of [append_desired_action], returned or
    raised: the pose cache holds a sample of confidence 1.0, the camera
    cache holds what it held or an observation of three cameras, and the
    log has at most one more entry. *)
Lemma append_desired_action_caches a self :
  let r := append_desired_action a self in
  (forall pose, _object_pose_t (snd r) = Some pose ->
                ObjectPose.confidence pose = 1%float)
  /\ (forall observation,
        _camera_observation_t (snd r) = Some observation ->
        _camera_observation_t self = Some observation
        \/ length (TriCameraObservation.cameras observation) = 3)
  /\ ActionLog.initial_robot_position (_action_log (snd r))
     = ActionLog.initial_robot_position (_action_log self)
  /\ ActionLog.initial_object_pose (_action_log (snd r))
     = ActionLog.initial_object_pose (_action_log self)
  /\ exists added,
       ActionLog.actions (_action_log (snd r))
       = ActionLog.actions (_action_log self) ++ added
       /\ length added <= 1.
Proof.
  cbv zeta. unfold append_desired_action.
  erewrite bind_ok by apply _get_current_object_pose_unset.
  erewrite bind_ok by reflexivity.
  erewrite bind_ok by reflexivity.
  simpl enable_cameras.
  destruct (enable_cameras self) eqn:Hen.
  - destruct (_get_current_camera_observation None
                (set__object_pose_t
                   (ObjectPose.mk (fst (cube_get_state (simfinger self)))
                      (snd (cube_get_state (simfinger self))) None 1%float)
                   self)) as [[observation|e] self1] eqn:Hsample.
    + pose proof (_get_current_camera_observation_three_cameras _ _ _ _ Hsample)
        as Hthree.
      pose proof (_get_current_camera_observation_pure None
                    (set__object_pose_t
                       (ObjectPose.mk (fst (cube_get_state (simfinger self)))
                          (snd (cube_get_state (simfinger self))) None 1%float)
                       self)) as Hpure.
      rewrite Hsample in Hpure. simpl in Hpure. subst self1.
      erewrite bind_ok.
      2: { erewrite bind_ok by exact Hsample. reflexivity. }
      run_platform.
      destruct (simfinger_append_desired_action a (simfinger self)) as [t w].
      simpl. rewrite ?Hen. simpl. rewrite for_items_all. simpl.
      split; [now intros pose [= <-]|]. split.
      { intros o [= <-]. right. simpl. now rewrite length_map. }
      split; [reflexivity|]. split; [reflexivity|].
      eexists [_]. split; [reflexivity | simpl; lia].
    + pose proof (_get_current_camera_observation_pure None
                    (set__object_pose_t
                       (ObjectPose.mk (fst (cube_get_state (simfinger self)))
                          (snd (cube_get_state (simfinger self))) None 1%float)
                       self)) as Hpure.
      rewrite Hsample in Hpure. simpl in Hpure. subst self1.
      erewrite bind_raise.
      2: { erewrite bind_raise by exact Hsample. reflexivity. }
      simpl.
      split; [now intros pose [= <-]|]. split; [intros o Ho; now left|].
      split; [reflexivity|]. split; [reflexivity|].
      exists []. split; [now rewrite app_nil_r | simpl; lia].
  - erewrite bind_ok by reflexivity.
    run_platform.
    destruct (simfinger_append_desired_action a (simfinger self)) as [t w].
    simpl. rewrite ?Hen. simpl.
    split; [now intros pose [= <-]|]. split; [intros o Ho; now left|].
    split; [reflexivity|]. split; [reflexivity|].
    eexists [_]. split; [reflexivity | simpl; lia].
Qed.

(** What [store_action_log] leaves of the platform. *)
Lemma store_action_log_effect filename disk self :
  let r := store_action_log filename disk self in
  _object_pose_t (snd r) = _object_pose_t self
  /\ _camera_observation_t (snd r) = _camera_observation_t self
  /\ simfinger (snd r) = simfinger self
  /\ ActionLog.initial_robot_position (_action_log (snd r))
     = ActionLog.initial_robot_position (_action_log self)
  /\ ActionLog.initial_object_pose (_action_log (snd r))
     = ActionLog.initial_object_pose (_action_log self)
  /\ ActionLog.actions (_action_log (snd r))
     = ActionLog.actions (_action_log self).
Proof.
  cbv zeta. destruct (_object_pose_t self) as [pose|] eqn:Hpose.
  - rewrite (store_action_log_run _ _ _ _ Hpose).
    destruct (writable disk filename); simpl; now rewrite Hpose.
  - rewrite (store_action_log_unset _ _ _ Hpose). simpl. now rewrite Hpose.
Qed.

(** What a returning [store_action_log] leaves on the disk. *)
Lemma store_action_log_document filename disk self disk' self' :
  store_action_log filename disk self = (Ok disk', self') ->
  files disk' = <[filename := Json.of_log (_action_log self')]> (files disk)
  /\ writable disk' = writable disk.
Proof.
  intros Hrun.
  destruct (_object_pose_t self) as [pose|] eqn:Hpose.
  2: { rewrite (store_action_log_unset _ _ _ Hpose) in Hrun. discriminate. }
  rewrite (store_action_log_run _ _ _ _ Hpose) in Hrun.
  destruct (writable disk filename); [|discriminate].
  injection Hrun as <- <-. now split.
Qed.

Lemma run_call_platform c s :
  fst (run_call c s)
  = match c with
    | AppendDesiredAction a => snd (append_desired_action a (fst s))
    | GetObjectPose _ | GetCameraObservation _ => fst s
    | StoreActionLog f => snd (store_action_log f (snd s) (fst s))
    end.
Proof.
  destruct s as [self disk]. destruct c as [a|t|t|f]; simpl.
  - reflexivity.
  - apply get_object_pose_pure.
  - apply get_camera_observation_pure.
  - now destruct (store_action_log f disk self) as [[disk'|e] self'].
Qed.

(** Over a session the log only grows, by at most one entry per call of
    [append_desired_action]. *)
Lemma run_calls_log cs s :
  ActionLog.initial_robot_position (_action_log (fst (run_calls cs s)))
  = ActionLog.initial_robot_position (_action_log (fst s))
  /\ ActionLog.initial_object_pose (_action_log (fst (run_calls cs s)))
     = ActionLog.initial_object_pose (_action_log (fst s))
  /\ exists added,
       ActionLog.actions (_action_log (fst (run_calls cs s)))
       = ActionLog.actions (_action_log (fst s)) ++ added
       /\ length added <= appends cs.
Proof.
  revert s. induction cs as [|c cs IH]; intros s.
  - simpl. split; [reflexivity|]. split; [reflexivity|].
    exists []. split; [now rewrite app_nil_r | simpl; lia].
  - change (run_calls (c :: cs) s) with (run_calls cs (run_call c s)).
    destruct (IH (run_call c s)) as (Hrobot & Hobject & added & Hlog & Hlen).
    rewrite Hrobot, Hobject, Hlog. rewrite run_call_platform. simpl appends.
    destruct c as [a|t|t|f].
    + destruct (append_desired_action_caches a (fst s))
        as (_ & _ & Hr & Ho & one & Hone & Hlen1).
      rewrite Hr, Ho, Hone. split; [reflexivity|]. split; [reflexivity|].
      exists (one ++ added). split; [now rewrite app_assoc|].
      rewrite length_app. lia.
    + split; [reflexivity|]. split; [reflexivity|]. exists added. split;
        [reflexivity | lia].
    + split; [reflexivity|]. split; [reflexivity|]. exists added. split;
        [reflexivity | lia].
    + destruct (store_action_log_effect f (snd s) (fst s))
        as (_ & _ & _ & Hr & Ho & Ha).
      rewrite Hr, Ho, Ha. split; [reflexivity|]. split; [reflexivity|].
      exists added. split; [reflexivity | lia].
Qed.

(** Over a session from a new platform a cached pose has confidence 1.0
    and a cached observation has three cameras. *)
Lemma session_caches visualization initial cameras cs disk :
  let self := session visualization initial cameras cs disk in
  (forall pose, _object_pose_t self = Some pose ->
                ObjectPose.confidence pose = 1%float)
  /\ (forall observation,
        _camera_observation_t self = Some observation ->
        length (TriCameraObservation.cameras observation) = 3).
Proof.
  unfold session.
  assert (Hgen : forall cs s,
             ((forall pose, _object_pose_t (fst s) = Some pose ->
                            ObjectPose.confidence pose = 1%float)
              /\ (forall observation,
                    _camera_observation_t (fst s) = Some observation ->
                    length (TriCameraObservation.cameras observation) = 3)) ->
             (forall pose, _object_pose_t (fst (run_calls cs s)) = Some pose ->
                           ObjectPose.confidence pose = 1%float)
             /\ (forall observation,
                   _camera_observation_t (fst (run_calls cs s)) = Some observation ->
                   length (TriCameraObservation.cameras observation) = 3)).
  { clear cs. intros cs. induction cs as [|c cs IH]; intros s Hs; [exact Hs|].
    change (run_calls (c :: cs) s) with (run_calls cs (run_call c s)).
    apply IH. rewrite run_call_platform. destruct Hs as [Hp Hc].
    destruct c as [a|t|t|f].
    - destruct (append_desired_action_caches a (fst s)) as (Hp' & Hc' & _).
      split; [exact Hp'|]. intros o Ho.
      destruct (Hc' o Ho) as [Hold|Hnew]; [now apply Hc | exact Hnew].
    - now split.
    - now split.
    - destruct (store_action_log_effect f (snd s) (fst s)) as (Hp' & Hc' & _).
      rewrite Hp', Hc'. now split. }
  apply Hgen. simpl. split; discriminate.
Qed.

End SessionFacts.

(** ** More on the facade: properties of a session *)

Section SessionProperties.

Context `{Backend}.

Implicit Types (self : TriFingerPlatform) (a : Action.t) (t : Z).

(** X7.  The [final_object_pose] that [store_action_log] writes after an
    action is the pose of the cube sampled before that action's step, the
    one the cache holds, not the pose of the cube after the step: its
    [position] and [orientation] are the JSON arrays of the numbers of the
    cube's state before the step, one number per coordinate, in order, and
    it is the last of the four members of the document. *)
Theorem final_pose_is_the_sample_before_the_last_step a self filename disk :
  (enable_cameras self = true -> length (get_images (simfinger self)) = 3) ->
  writable disk filename = true ->
  exists t self1 disk' self2 doc final,
    append_desired_action a self = (Ok t, self1)
    /\ store_action_log filename disk self1 = (Ok disk', self2)
    /\ files disk' !! filename = Some doc
    /\ final
       = Json.JObject
           [ ("position",
              Json.JArray
                (map Json.JFloat (fst (cube_get_state (simfinger self)))));
             ("orientation",
              Json.JArray
                (map Json.JFloat (snd (cube_get_state (simfinger self)))))
           ]%string
    /\ Json.field "final_object_pose" doc = Some final
    /\ exists initial_robot_position initial_object_pose actions,
         doc = Json.JObject
                 [ ("initial_robot_position", initial_robot_position);
                   ("initial_object_pose", initial_object_pose);
                   ("actions", actions);
                   ("final_object_pose", final) ]%string.
Proof.
  intros Hrig Hw.
  pose proof (append_desired_action_run a self Hrig) as Hrun.
  cbv zeta in Hrun.
  match type of Hrun with
  | _ = (Ok ?t, ?p) => set (t1 := t) in *; set (self1 := p) in *
  end.
  pose proof (store_action_log_run filename disk self1 _ eq_refl) as Hstore.
  cbv zeta in Hstore. rewrite Hw in Hstore.
  eexists t1, self1, _, _, _, _.
  split; [exact Hrun|]. split; [exact Hstore|].
  split; [apply lookup_insert_eq|]. split; [reflexivity|].
  split; [reflexivity|]. eexists _, _, _. reflexivity.
Qed.

(** X8.  [store_action_log] can be repeated: a second call, to the same or
    to another writable path, leaves the platform as the first call left it
    and writes the document that the first call wrote. *)
Theorem store_action_log_is_repeatable
    self filename disk disk1 self1 other :
  store_action_log filename disk self = (Ok disk1, self1) ->
  writable disk other = true ->
  exists disk2,
    store_action_log other disk1 self1 = (Ok disk2, self1)
    /\ files disk2 !! other = files disk1 !! filename
    /\ (other = filename -> disk2 = disk1).
Proof.
  intros Hfirst Hw.
  destruct (_object_pose_t self) as [pose|] eqn:Hpose.
  2: { rewrite (store_action_log_unset _ _ _ Hpose) in Hfirst. discriminate. }
  rewrite (store_action_log_run _ _ _ _ Hpose) in Hfirst.
  destruct (writable disk filename); [|discriminate].
  injection Hfirst as <- <-.
  pose proof (store_action_log_run other
                (mkDisk (writable disk)
                   (<[filename :=
                        Json.of_log
                          (ActionLog.set_final_object_pose
                             (ActionLog.mk_pose (ObjectPose.position pose)
                                (ObjectPose.orientation pose))
                             (_action_log self))]> (files disk)))
                (set__action_log
                   (ActionLog.set_final_object_pose
                      (ActionLog.mk_pose (ObjectPose.position pose)
                         (ObjectPose.orientation pose))
                      (_action_log self)) self)
                pose Hpose) as Hsecond.
  cbv zeta in Hsecond. simpl writable in Hsecond. rewrite Hw in Hsecond.
  eexists. split; [exact Hsecond|]. simpl files. split.
  - now rewrite !lookup_insert_eq.
  - intros ->. simpl. now rewrite insert_insert_eq.
Qed.

(** X9.  A call of [store_action_log] that returns has written the one
    file it was given, replacing what the file held; every other file is as
    it was, and so is what can be written. *)
Theorem store_action_log_writes_one_file self filename disk disk' self' other :
  store_action_log filename disk self = (Ok disk', self') ->
  files disk' !! filename = Some (Json.of_log (_action_log self'))
  /\ (other <> filename -> files disk' !! other = files disk !! other)
  /\ writable disk' = writable disk.
Proof.
  intros Hrun.
  destruct (store_action_log_document _ _ _ _ _ Hrun) as [Hfiles Hw].
  rewrite Hfiles. split; [apply lookup_insert_eq|]. split; [|exact Hw].
  intros Hne. apply lookup_insert_ne. congruence.
Qed.

(** X10.  The log is append-only: whatever calls are made, the initial
    robot position and the initial object pose stay as they were, the
    entries already logged stay in place, and at most one entry is added
    per call of [append_desired_action]. *)
Theorem log_is_append_only cs (s : TriFingerPlatform * Disk) :
  ActionLog.initial_robot_position (_action_log (fst (run_calls cs s)))
  = ActionLog.initial_robot_position (_action_log (fst s))
  /\ ActionLog.initial_object_pose (_action_log (fst (run_calls cs s)))
     = ActionLog.initial_object_pose (_action_log (fst s))
  /\ exists added,
       ActionLog.actions (_action_log (fst (run_calls cs s)))
       = ActionLog.actions (_action_log (fst s)) ++ added
       /\ length added <= appends cs.
Proof. apply run_calls_log. Qed.

(** X11.  The caches have one slot: after a second call of
    [append_desired_action] the time index that the first call returned is
    no longer served, for the object pose and for the camera observation. *)
Theorem previous_index_expires `{!StepperContract} a1 a2 self :
  (enable_cameras self = true -> CameraContract) ->
  exists t1 self1 t2 self2 pose,
    append_desired_action a1 self = (Ok t1, self1)
    /\ get_object_pose t1 self1 = (Ok pose, self1)
    /\ append_desired_action a2 self1 = (Ok t2, self2)
    /\ get_object_pose t1 self2
       = (Raise (ValueError invalid_time_index), self2)
    /\ (enable_cameras self = true ->
        get_camera_observation t1 self2
        = (Raise (ValueError invalid_time_index), self2)).
Proof.
  intros Hrig.
  pose proof (append_desired_action_run a1 self
                (fun Hon => @three_images _ (Hrig Hon) _)) as Hrun1.
  cbv zeta in Hrun1.
  match type of Hrun1 with
  | _ = (Ok ?t, ?p) => set (t1 := t) in *; set (self1 := p) in *
  end.
  pose proof (append_desired_action_run a2 self1
                (fun Hon => @three_images _ (Hrig Hon) _)) as Hrun2.
  cbv zeta in Hrun2.
  match type of Hrun2 with
  | _ = (Ok ?t, ?p) => set (t2 := t) in *; set (self2 := p) in *
  end.
  assert (Hcur1 : get_current_timeindex (simfinger self1) = t1).
  { subst self1 t1. simpl. apply step_returns_current. }
  assert (Hcur2 : get_current_timeindex (simfinger self2) = (t1 + 1)%Z).
  { subst self2. simpl. unfold stepped_world.
    rewrite step_returns_current, step_advances_by_one. now rewrite Hcur1. }
  eexists t1, self1, t2, self2, _.
  split; [exact Hrun1|]. split.
  { rewrite get_object_pose_current by (symmetry; exact Hcur1).
    subst self1. reflexivity. }
  split; [exact Hrun2|]. split.
  - apply get_object_pose_invalid; rewrite Hcur2; lia.
  - intros Hon. apply get_camera_observation_invalid;
      [subst self2 self1; exact Hon | rewrite Hcur2; lia | rewrite Hcur2; lia].
Qed.

(** X12.  With cameras enabled, a rig that delivers more than three images
    makes [append_desired_action] raise an [IndexError] before the step:
    the robot is not stepped, nothing is logged, the camera cache is as it
    was, and the pose cache already holds the new sample, without a
    timestamp, which [get_object_pose] then serves for the current index. *)
Theorem extra_camera_image_stops_the_step a self :
  enable_cameras self = true ->
  3 < length (get_images (simfinger self)) ->
  exists self' sample,
    append_desired_action a self
    = (Raise (IndexError "list index out of range"), self')
    /\ simfinger self' = simfinger self
    /\ _action_log self' = _action_log self
    /\ _camera_observation_t self' = _camera_observation_t self
    /\ get_object_pose (get_current_timeindex (simfinger self')) self'
       = (Ok sample, self')
    /\ ObjectPose.timestamp sample = None
    /\ ObjectPose.position sample = fst (cube_get_state (simfinger self)).
Proof.
  intros Hon Hlen.
  eexists _, _. split; [exact (append_desired_action_overflow a self Hon Hlen)|].
  simpl. do 3 (split; [reflexivity|]).
  split.
  { rewrite get_object_pose_current by reflexivity. reflexivity. }
  split; reflexivity.
Qed.

(** X13.  The pose served for a time index ahead of the step that
    completes it and the pose served for that index after the step are the
    same pose of the cube (the one before the step); only the timestamps
    differ. *)
Theorem pose_ahead_is_the_pose_cached `{!StepperContract} a self :
  (enable_cameras self = true -> CameraContract) ->
  exists t self' ahead cached,
    append_desired_action a self = (Ok t, self')
    /\ get_object_pose t self = (Ok ahead, self)
    /\ get_object_pose t self' = (Ok cached, self')
    /\ ObjectPose.position ahead = ObjectPose.position cached
    /\ ObjectPose.orientation ahead = ObjectPose.orientation cached
    /\ ObjectPose.confidence ahead = ObjectPose.confidence cached.
Proof.
  intros Hrig.
  pose proof (append_desired_action_run a self
                (fun Hon => @three_images _ (Hrig Hon) _)) as Hrun.
  cbv zeta in Hrun.
  match type of Hrun with
  | _ = (Ok ?t, ?p) => set (t1 := t) in *; set (self1 := p) in *
  end.
  eexists t1, self1, _, _. split; [exact Hrun|]. split.
  { apply get_object_pose_next. apply step_advances_by_one. }
  split.
  { rewrite get_object_pose_current.
    - subst self1. reflexivity.
    - subst self1 t1. simpl. symmetry. apply step_returns_current. }
  repeat split.
Qed.

(** X14.  In a session on a new platform every camera observation that
    [get_camera_observation] returns has exactly three cameras, however
    many images the rig delivers. *)
Theorem observations_have_three_cameras
    visualization initial cameras cs disk t observation self' :
  get_camera_observation t (session visualization initial cameras cs disk)
  = (Ok observation, self') ->
  length (TriCameraObservation.cameras observation) = 3.
Proof.
  set (self := session visualization initial cameras cs disk).
  destruct (session_caches visualization initial cameras cs disk) as [_ Hcache].
  fold self in Hcache.
  unfold get_camera_observation.
  erewrite bind_ok by reflexivity.
  destruct (enable_cameras self); simpl; [|discriminate].
  erewrite bind_ok by reflexivity. simpl.
  destruct (t =? get_current_timeindex (simfinger self))%Z.
  - unfold getattr.
    destruct (_camera_observation_t self) as [o|] eqn:Ho; [|discriminate].
    intros [= <- _]. now apply Hcache.
  - destruct (t =? get_current_timeindex (simfinger self) + 1)%Z.
    + apply _get_current_camera_observation_three_cameras.
    + discriminate.
Qed.

(** X15.  In a session on a new platform every pose that [get_object_pose]
    returns has confidence 1.0, as its docstring says. *)
Theorem poses_have_full_confidence
    visualization initial cameras cs disk t pose self' :
  get_object_pose t (session visualization initial cameras cs disk)
  = (Ok pose, self') ->
  ObjectPose.confidence pose = 1%float.
Proof.
  set (self := session visualization initial cameras cs disk).
  destruct (session_caches visualization initial cameras cs disk) as [Hcache _].
  fold self in Hcache.
  unfold get_object_pose. erewrite bind_ok by reflexivity. simpl.
  destruct (t =? get_current_timeindex (simfinger self))%Z.
  - unfold getattr.
    destruct (_object_pose_t self) as [p|] eqn:Hp; [|discriminate].
    intros [= <- _]. now apply Hcache.
  - destruct (t =? get_current_timeindex (simfinger self) + 1)%Z.
    + rewrite _get_current_object_pose_at. now intros [= <- _].
    + discriminate.
Qed.

(** X16.  The initial state in the written log is the one of construction:
    whatever calls were made since, the document's [initial_object_pose]
    is the pose given to the constructor (the sampled goal when none was
    given), its [position] and [orientation] the JSON arrays of the pose's
    numbers, and its [initial_robot_position] is the JSON array of the
    nine initial joint positions, the same three angles for each of the
    three fingers.  They are the first two of the four members of the
    document. *)
Theorem initial_state_reaches_the_document
    visualization initial cameras cs disk0 filename disk disk' self' doc :
  store_action_log filename disk
    (session visualization initial cameras cs disk0) = (Ok disk', self') ->
  files disk' !! filename = Some doc ->
  let pose := match initial with
              | Some pose => pose
              | None => sample_goal (-1)
              end in
  let object :=
    Json.JObject
      [ ("position", Json.JArray (map Json.JFloat (Pose.position pose)));
        ("orientation", Json.JArray (map Json.JFloat (Pose.orientation pose)))
      ]%string in
  let robot :=
    Json.JArray
      [ Json.JFloat 0%float; Json.JFloat (deg2rad (-70)%float);
        Json.JFloat (deg2rad (-130)%float);
        Json.JFloat 0%float; Json.JFloat (deg2rad (-70)%float);
        Json.JFloat (deg2rad (-130)%float);
        Json.JFloat 0%float; Json.JFloat (deg2rad (-70)%float);
        Json.JFloat (deg2rad (-130)%float) ] in
  Json.field "initial_object_pose" doc = Some object
  /\ Json.field "initial_robot_position" doc = Some robot
  /\ exists actions final_object_pose,
       doc = Json.JObject
               [ ("initial_robot_position", robot);
                 ("initial_object_pose", object);
                 ("actions", actions);
                 ("final_object_pose", final_object_pose) ]%string.
Proof.
  intros Hstore Hfile pose object robot.
  destruct (run_calls_log cs
              (trifinger_platform.__init__ visualization initial cameras, disk0))
    as (Hrobot0 & Hobject0 & _).
  fold (session visualization initial cameras cs disk0) in Hrobot0, Hobject0.
  simpl in Hrobot0, Hobject0.
  destruct (_object_pose_t (session visualization initial cameras cs disk0))
    as [cached|] eqn:Hpose.
  2: { rewrite (store_action_log_unset _ _ _ Hpose) in Hstore. discriminate. }
  rewrite (store_action_log_run _ _ _ _ Hpose) in Hstore.
  destruct (writable disk filename); [|discriminate].
  injection Hstore as <- <-. simpl in Hfile.
  rewrite lookup_insert_eq in Hfile. injection Hfile as <-.
  unfold Json.of_log, Json.of_pose_entry, Json.of_floats. simpl.
  rewrite Hrobot0, Hobject0. simpl.
  split; [reflexivity|]. split; [reflexivity|].
  eexists _, _. reflexivity.
Qed.

End SessionProperties.

(** ** More on the connector: construction and teardown *)

Section ConnectorProperties.

Context `{FingerTypesData} `{Assets}.


(** X18.  An unknown finger type fails fast: the constructor raises what
    [check_finger_type] raises, before it prints, warns or connects. *)
Theorem unknown_finger_type_fails_fast
    enable_simulation finger_type enable_visualization process e :
  check_finger_type finger_type = Raise e ->
  base_finger.__init__ enable_simulation finger_type enable_visualization
    process = (Raise e, process).
Proof.
  intros Hcheck. unfold base_finger.__init__, bind, lift.
  now rewrite Hcheck.
Qed.

(** X19.  The robot description is taken from the [rospkg] package when
    the lookup returns, silently; when the lookup raises, one line is
    printed and the copy next to the module is used.  The URDF path is the
    file of the finger type under [urdf] in that directory. *)
Theorem asset_path_falls_back_to_local_copy
    enable_simulation finger_type enable_visualization process name urdf n :
  check_finger_type finger_type = Ok name ->
  get_finger_urdf name = Ok urdf ->
  get_number_of_fingers name = Ok n ->
  exists self process',
    base_finger.__init__ enable_simulation finger_type enable_visualization
      process = (Ok self, process')
    /\ match rospkg_get_path "robot_properties_fingers" with
       | Ok path =>
           robot_properties_path self = path
           /\ stdout process' = stdout process
       | Raise _ =>
           robot_properties_path self
           = os_path_join [module_dirname; "robot_properties_fingers"]%string
           /\ stdout process' = stdout process ++ [local_copy_message]
       end
    /\ finger_urdf_path self
       = os_path_join [robot_properties_path self; "urdf"; urdf]%string.
Proof.
  intros Hcheck Hurdf Hn. destruct process as [client printed warned].
  unfold base_finger.__init__, __set_finger_type_dependency.
  unfold bind, lift, try_except, ret. rewrite Hcheck.
  destruct (rospkg_get_path "robot_properties_fingers") as [path|e];
    simpl; destruct (is_deprecated name); simpl;
    rewrite Hurdf, Hn; simpl;
    destruct (__init_joint_lists n) as [links tips]; simpl;
    destruct enable_simulation, enable_visualization; simpl;
    eexists _, _; (split; [reflexivity|]); simpl; repeat split.
Qed.

(** X20.  In a process that holds no connection to the physics server, a
    connector that is constructed and then deleted leaves no connection
    behind: [__del__] returns, the simulation-enabled flag is false and
    the process is not connected to the physics server, whether the
    simulation was enabled or not. *)
Theorem construct_then_delete_disconnects
    enable_simulation finger_type enable_visualization process name urdf n :
  pybullet_client process = None ->
  check_finger_type finger_type = Ok name ->
  get_finger_urdf name = Ok urdf ->
  get_number_of_fingers name = Ok n ->
  exists self process',
    bind (base_finger.__init__ enable_simulation finger_type
            enable_visualization)
         __del__ process
    = (Ok self, process')
    /\ base_finger.enable_simulation self = false
    /\ pybullet_client process' = None
    /\ link_names self = fst (__init_joint_lists n).
Proof.
  intros Hfree Hcheck Hurdf Hn.
  destruct (connector_init_run enable_simulation finger_type
              enable_visualization process name urdf n Hcheck Hurdf Hn)
    as (path & out & Hrun).
  erewrite bind_ok by exact Hrun.
  destruct enable_simulation, enable_visualization;
    eexists _, _; (split; [reflexivity|]); simpl;
    (split; [reflexivity|]); (split; [|reflexivity]);
    first [reflexivity | exact Hfree].
Qed.

End ConnectorProperties.

(** ** The further properties on the reference models *)

Section OnTheReferenceModels.

Import reference reference_models.

Lemma loaded_indices_witness :
  exists body links tips,
    _load_robot_urdf (connector "fingerone") unassigned no_bodies
    = (Returned tt, mk_attributes (Some body) (Some links) (Some tips) (Some links),
       loaded finger_body)
    /\ body = 0%Z /\ links = [0; 1; 2]%Z /\ tips = [3]%Z
    /\ Forall2 (indexes body
                  (loaded finger_body))
               (link_names (connector "fingerone")) links.
Proof.
  set (r := _load_robot_urdf (connector "fingerone") unassigned no_bodies).
  destruct (loaded_indices_point_at_their_links
              (connector "fingerone") unassigned no_bodies (snd (fst r)) (snd r))
    as (body & links & tips & Hbody & Hlinks & Htips & Hjoints & Hsound & _).
  - reflexivity.
  - vm_compute. reflexivity.
  - assert (Hb : body = 0%Z) by (vm_compute in Hbody; congruence).
    assert (Hl : links = [0; 1; 2]%Z) by (vm_compute in Hlinks; congruence).
    assert (Ht : tips = [3]%Z) by (vm_compute in Htips; congruence).
    exists body, links, tips. subst body links tips.
    split; [vm_compute; reflexivity|].
    do 3 (split; [reflexivity|]). exact Hsound.
Defined.

Lemma later_joint_witness :
  exists assigned',
    _load_robot_urdf respun_connector unassigned no_bodies
    = (Returned tt, assigned', loaded respun_body)
    /\ link_names respun_connector
       = [ "finger_upper_link"; "finger_middle_link"; "finger_lower_link" ]
    /\ tip_link_names respun_connector = [ "finger_tip_link" ]
    /\ getBodyInfo 0 (loaded respun_body) = "finger_tip_link"
    /\ map (fun joint => getJointInfo 0 joint (loaded respun_body))
           [0; 1; 2; 3; 4]%Z
       = [ "finger_upper_link"; "finger_middle_link"; "finger_upper_link";
           "finger_lower_link"; "finger_tip_link" ]
    /\ pybullet_link_indices assigned' = Some [2; 1; 3]%Z
    /\ pybullet_tip_link_indices assigned' = Some [4]%Z
    /\ Forall2 (fun name index =>
                  ((0 <= index < 5)%Z
                   /\ getJointInfo 0 index (loaded respun_body) = name
                   /\ forall joint,
                        (0 <= joint < 5)%Z ->
                        getJointInfo 0 joint (loaded respun_body) = name ->
                        (joint <= index)%Z)
                  \/ (index = (-1)%Z
                      /\ getBodyInfo 0 (loaded respun_body) = name
                      /\ forall joint,
                           (0 <= joint < 5)%Z ->
                           getJointInfo 0 joint (loaded respun_body) <> name))
               [ "finger_upper_link"; "finger_middle_link";
                 "finger_lower_link"; "finger_tip_link" ]
               [2; 1; 3; 4]%Z.
Proof.
  set (r := _load_robot_urdf respun_connector unassigned no_bodies).
  destruct (later_joint_takes_the_name
              respun_connector unassigned no_bodies (snd (fst r)) (snd r))
    as (body & links & tips & Hbody & Hlinks & Htips & Hgreatest).
  - reflexivity.
  - vm_compute. reflexivity.
  - assert (Hb : body = 0%Z) by (vm_compute in Hbody; congruence).
    assert (Hl : links = [2; 1; 3]%Z) by (vm_compute in Hlinks; congruence).
    assert (Ht : tips = [4]%Z) by (vm_compute in Htips; congruence).
    subst body links tips. exists (snd (fst r)).
    split; [vm_compute; reflexivity|].
    split; [vm_compute; reflexivity|].
    split; [vm_compute; reflexivity|].
    split; [reflexivity|]. split; [reflexivity|].
    split; [exact Hlinks|]. split; [exact Htips|].
    exact Hgreatest.
Defined.

Lemma unknown_link_name_witness :
  exists key,
    _load_robot_urdf (connector "trifingerone") unassigned no_bodies
    = (Raised (KeyError key), set_finger_id 0 unassigned,
       (loaded trifinger_body))
    /\ key ∈ link_names (connector "trifingerone").
Proof.
  destruct (unknown_link_name_raises_key_error
              (connector "trifingerone") unassigned no_bodies 0%Z
              (loaded trifinger_body)
              "finger_upper_link_120")
    as (key & Hrun & Hkey & _).
  - reflexivity.
  - vm_compute. reflexivity.
  - vm_compute. do 3 right. left.
  - intros Hlink. apply link_name_to_index_is_link in Hlink.
    vm_compute in Hlink. destruct Hlink as [index Hindex]. discriminate Hindex.
  - exists key. split; [exact Hrun | exact Hkey].
Defined.

Lemma unknown_tip_link_name_witness :
  exists key links,
    _load_robot_urdf (connector "trifingerpro") unassigned no_bodies
    = (Raised (KeyError key),
       set_pybullet_link_indices links (set_finger_id 0 unassigned),
       snd (load_call (connector "trifingerpro") no_bodies))
    /\ length links = 9
    /\ key ∈ tip_link_names (connector "trifingerpro").
Proof.
  destruct (unknown_tip_link_name_raises_key_error
              (connector "trifingerpro") unassigned no_bodies 0%Z
              (snd (load_call (connector "trifingerpro") no_bodies))
              "finger_tip_link_240")
    as (key & links & Hrun & Hlen & Hkey & _).
  - reflexivity.
  - vm_compute. reflexivity.
  - apply Forall_forall. intros name Hname.
    apply link_name_to_index_is_link.
    vm_compute in Hname.
    repeat (apply elem_of_cons in Hname as [->|Hname];
            [vm_compute; eexists; reflexivity|]).
    now apply elem_of_nil in Hname.
  - vm_compute. do 2 right. left.
  - intros Hlink. apply link_name_to_index_is_link in Hlink.
    vm_compute in Hlink. destruct Hlink as [index Hindex]. discriminate Hindex.
  - exists key, links. split; [exact Hrun|]. split; [exact Hlen | exact Hkey].
Defined.

Lemma load_returns_witness :
  fst (fst (_load_robot_urdf (connector "fingerone") unassigned no_bodies))
  = Returned tt
  /\ Forall (is_link 0 (snd (load_call (connector "fingerone") no_bodies)))
            (link_names (connector "fingerone")
             ++ tip_link_names (connector "fingerone")).
Proof.
  pose proof (load_returns_iff_names_are_links
                (connector "fingerone") unassigned no_bodies 0%Z
                (snd (load_call (connector "fingerone") no_bodies))
                eq_refl) as Hiff.
  assert (Hrun : fst (fst (_load_robot_urdf (connector "fingerone")
                             unassigned no_bodies)) = Returned tt)
    by (vm_compute; reflexivity).
  split; [exact Hrun|]. apply Hiff; [vm_compute; reflexivity | exact Hrun].
Defined.

Lemma load_after_disconnect_witness :
  exists self1 process1,
    _disconnect_from_simulation (connector "fingerone")
      (mkProcess (Some DIRECT) [] [])
    = (Ok self1, process1)
    /\ _load_robot_urdf self1 unassigned no_bodies = (Returned tt, unassigned, no_bodies).
Proof.
  set (r := _disconnect_from_simulation (connector "fingerone")
              (mkProcess (Some DIRECT) [] [])).
  exists (match fst r with
          | Ok self1 => self1
          | Raise _ => connector "fingerone"
          end), (snd r).
  split; [reflexivity|].
  apply (load_after_disconnect_is_skipped
           (connector "fingerone") (mkProcess (Some DIRECT) [] []) _ (snd r)).
  reflexivity.
Defined.

Lemma final_pose_witness :
  exists self1 disk' self2 doc initial_robot_position initial_object_pose
         actions,
    append_desired_action (push 2) (new_platform false) = (Ok 1%Z, self1)
    /\ cube_get_state (simfinger (new_platform false))
       = ([0; 0; 1]%float, [0; 0; 0; 1]%float)
    /\ cube_get_state (simfinger self1) = ([2; 2; 3]%float, [0; 0; 0; 1]%float)
    /\ store_action_log "log.json" empty_disk self1 = (Ok disk', self2)
    /\ files disk' !! "log.json"%string = Some doc
    /\ doc
       = Json.JObject
           [ ("initial_robot_position", initial_robot_position);
             ("initial_object_pose", initial_object_pose);
             ("actions", actions);
             ("final_object_pose",
              Json.JObject
                [ ("position",
                   Json.JArray
                     [ Json.JFloat 0; Json.JFloat 0; Json.JFloat 1 ]);
                  ("orientation",
                   Json.JArray
                     [ Json.JFloat 0; Json.JFloat 0; Json.JFloat 0;
                       Json.JFloat 1 ]) ]) ]%string.
Proof.
  destruct (@final_pose_is_the_sample_before_the_last_step backend
              (push 2) (new_platform false) "log.json" empty_disk)
    as (t & self1 & disk' & self2 & doc & final & Hrun & Hstore & Hfile
        & Hfinal & _ & robot & object & actions & Hdoc).
  - discriminate.
  - reflexivity.
  - assert (Ht : t = 1%Z).
    { pose proof (f_equal fst Hrun) as Hfst.
      vm_compute in Hfst. now injection Hfst as <-. }
    subst t. exists self1, disk', self2, doc, robot, object, actions.
    split; [exact Hrun|]. split; [reflexivity|]. split.
    { pose proof (f_equal snd Hrun) as Hsnd. simpl in Hsnd. rewrite <- Hsnd.
      vm_compute. reflexivity. }
    split; [exact Hstore|]. split; [exact Hfile|].
    rewrite Hdoc, Hfinal. reflexivity.
Defined.

Lemma store_repeatable_witness :
  let self1 := snd (append_desired_action (push 2) (new_platform false)) in
  exists disk1 self2 disk2,
    store_action_log "log.json" empty_disk self1 = (Ok disk1, self2)
    /\ store_action_log "copy.json" disk1 self2 = (Ok disk2, self2)
    /\ files disk2 !! "copy.json"%string = files disk1 !! "log.json"%string.
Proof.
  intros self1.
  set (r := store_action_log "log.json" empty_disk self1).
  assert (Hfirst : exists disk1, r = (Ok disk1, snd r)).
  { vm_compute. eexists. reflexivity. }
  destruct Hfirst as [disk1 Hfirst].
  destruct (@store_action_log_is_repeatable backend self1 "log.json"
              empty_disk disk1 (snd r) "copy.json" Hfirst eq_refl)
    as (disk2 & Hsecond & Hsame & _).
  exists disk1, (snd r), disk2.
  split; [exact Hfirst|]. split; [exact Hsecond | exact Hsame].
Defined.

Lemma store_writes_one_file_witness :
  let self1 := snd (append_desired_action (push 2) (new_platform false)) in
  exists disk' self2,
    store_action_log "log.json" small_disk self1 = (Ok disk', self2)
    /\ files disk' !! "notes.json"%string = Some (Json.JArray [])
    /\ files disk' !! "log.json"%string
       = Some (Json.of_log (_action_log self2)).
Proof.
  intros self1.
  set (r := store_action_log "log.json" small_disk self1).
  assert (Hrun : exists disk', r = (Ok disk', snd r)).
  { vm_compute. eexists. reflexivity. }
  destruct Hrun as [disk' Hrun].
  destruct (@store_action_log_writes_one_file backend self1 "log.json"
              small_disk disk' (snd r) "notes.json" Hrun)
    as (Hfile & Hother & _).
  exists disk', (snd r). split; [exact Hrun|]. split; [|exact Hfile].
  rewrite Hother by discriminate. reflexivity.
Defined.

Lemma previous_index_witness :
  exists self1 self2 pose,
    append_desired_action (push 2) (new_platform true) = (Ok 1%Z, self1)
    /\ get_object_pose 1 self1 = (Ok pose, self1)
    /\ append_desired_action (push 1) self1 = (Ok 2%Z, self2)
    /\ get_object_pose 1 self2
       = (Raise (ValueError invalid_time_index), self2)
    /\ get_camera_observation 1 self2
       = (Raise (ValueError invalid_time_index), self2).
Proof.
  destruct (@previous_index_expires backend reference_stepper_contract
              (push 2) (push 1) (new_platform true)
              (fun _ => reference_camera_contract))
    as (t1 & self1 & t2 & self2 & pose & Hrun1 & Hpose & Hrun2 & Hgone & Hcam).
  assert (Ht1 : t1 = 1%Z).
  { pose proof (f_equal fst Hrun1) as Hfst.
    vm_compute in Hfst. now injection Hfst as <-. }
  subst t1.
  assert (Ht2 : t2 = 2%Z).
  { pose proof (f_equal snd Hrun1) as Hsnd. simpl in Hsnd. subst self1.
    pose proof (f_equal fst Hrun2) as Hfst.
    vm_compute in Hfst. now injection Hfst as <-. }
  subst t2. exists self1, self2, pose.
  split; [exact Hrun1|]. split; [exact Hpose|]. split; [exact Hrun2|].
  split; [exact Hgone | exact (Hcam eq_refl)].
Defined.

Lemma extra_camera_image_witness :
  let self := @trifinger_platform.__init__ four_cameras false (Some cube_pose) true in
  exists self' sample,
    @append_desired_action four_cameras (push 2) self
    = (Raise (IndexError "list index out of range"), self')
    /\ @simfinger four_cameras self' = @simfinger four_cameras self
    /\ @_action_log four_cameras self' = @_action_log four_cameras self
    /\ @get_object_pose four_cameras 0 self' = (Ok sample, self')
    /\ ObjectPose.timestamp sample = None.
Proof.
  intros self.
  destruct (@extra_camera_image_stops_the_step four_cameras (push 2) self)
    as (self' & sample & Hrun & Hworld & Hlog & _ & Hpose & Hstamp & _).
  - reflexivity.
  - simpl. lia.
  - exists self', sample. split; [exact Hrun|]. split; [exact Hworld|].
    split; [exact Hlog|]. split; [|exact Hstamp].
    rewrite Hworld in Hpose. exact Hpose.
Defined.

Lemma pose_ahead_witness :
  exists self' ahead cached,
    append_desired_action (push 2) (new_platform false) = (Ok 1%Z, self')
    /\ get_object_pose 1 (new_platform false) = (Ok ahead, new_platform false)
    /\ get_object_pose 1 self' = (Ok cached, self')
    /\ ObjectPose.position ahead = ObjectPose.position cached
    /\ ObjectPose.timestamp ahead = Some 4%float
    /\ ObjectPose.timestamp cached = Some (4 / 1000)%float.
Proof.
  destruct (@pose_ahead_is_the_pose_cached backend reference_stepper_contract
              (push 2) (new_platform false)
              (fun _ => reference_camera_contract))
    as (t & self' & ahead & cached & Hrun & Hahead & Hcached & Hpos & _).
  assert (Ht : t = 1%Z).
  { pose proof (f_equal fst Hrun) as Hfst.
    vm_compute in Hfst. now injection Hfst as <-. }
  subst t. exists self', ahead, cached.
  split; [exact Hrun|]. split; [exact Hahead|]. split; [exact Hcached|].
  split; [exact Hpos|]. split.
  - pose proof (f_equal fst Hahead) as Hfst. vm_compute in Hfst.
    injection Hfst as <-. reflexivity.
  - pose proof (f_equal snd Hrun) as Hsnd. simpl in Hsnd. subst self'.
    pose proof (f_equal fst Hcached) as Hfst. vm_compute in Hfst.
    injection Hfst as <-. reflexivity.
Defined.

Lemma three_cameras_witness :
  let self :=
    session false (Some cube_pose) true
      [ AppendDesiredAction (push 2); GetObjectPose 9 ] empty_disk in
  exists observation,
    get_camera_observation 2 self = (Ok observation, self)
    /\ length (TriCameraObservation.cameras observation) = 3.
Proof.
  intros self.
  set (r := get_camera_observation 2 self).
  assert (Hrun : exists observation, r = (Ok observation, self)).
  { vm_compute. eexists. reflexivity. }
  destruct Hrun as [observation Hrun].
  exists observation. split; [exact Hrun|].
  exact (@observations_have_three_cameras backend false (Some cube_pose) true
           [ AppendDesiredAction (push 2); GetObjectPose 9 ] empty_disk
           2%Z observation self Hrun).
Defined.

Lemma full_confidence_witness :
  let self :=
    session false (Some cube_pose) false
      [ AppendDesiredAction (push 2); StoreActionLog "log.json" ] empty_disk in
  exists pose,
    get_object_pose 1 self = (Ok pose, self)
    /\ ObjectPose.confidence pose = 1%float.
Proof.
  intros self.
  set (r := get_object_pose 1 self).
  assert (Hrun : exists pose, r = (Ok pose, self)).
  { vm_compute. eexists. reflexivity. }
  destruct Hrun as [pose Hrun].
  exists pose. split; [exact Hrun|].
  exact (@poses_have_full_confidence backend false (Some cube_pose) false
           [ AppendDesiredAction (push 2); StoreActionLog "log.json" ]
           empty_disk 1%Z pose self Hrun).
Defined.

Lemma initial_state_witness :
  let self :=
    session false (Some cube_pose) false
      [ AppendDesiredAction (push 2); AppendDesiredAction (push 1) ]
      empty_disk in
  exists disk' self' doc actions final_object_pose,
    store_action_log "log.json" empty_disk self = (Ok disk', self')
    /\ files disk' !! "log.json"%string = Some doc
    /\ doc
       = Json.JObject
           [ ("initial_robot_position",
              Json.JArray
                [ Json.JFloat 0%float; Json.JFloat (deg2rad (-70)%float);
                  Json.JFloat (deg2rad (-130)%float);
                  Json.JFloat 0%float; Json.JFloat (deg2rad (-70)%float);
                  Json.JFloat (deg2rad (-130)%float);
                  Json.JFloat 0%float; Json.JFloat (deg2rad (-70)%float);
                  Json.JFloat (deg2rad (-130)%float) ]);
             ("initial_object_pose",
              Json.JObject
                [ ("position",
                   Json.JArray
                     [ Json.JFloat 0%float; Json.JFloat 0%float;
                       Json.JFloat 1%float ]);
                  ("orientation",
                   Json.JArray
                     [ Json.JFloat 0%float; Json.JFloat 0%float;
                       Json.JFloat 0%float; Json.JFloat 1%float ]) ]);
             ("actions", actions);
             ("final_object_pose", final_object_pose) ]%string.
Proof.
  intros self.
  set (r := store_action_log "log.json" empty_disk self).
  assert (Hrun : exists disk', r = (Ok disk', snd r)).
  { vm_compute. eexists. reflexivity. }
  destruct Hrun as [disk' Hrun].
  assert (Hfile : exists doc, files disk' !! "log.json"%string = Some doc).
  { pose proof (f_equal fst Hrun) as Hfst. vm_compute in Hfst.
    injection Hfst as <-. vm_compute. eexists. reflexivity. }
  destruct Hfile as [doc Hfile].
  destruct (@initial_state_reaches_the_document backend false (Some cube_pose)
              false
              [ AppendDesiredAction (push 2); AppendDesiredAction (push 1) ]
              empty_disk "log.json" empty_disk disk' (snd r) doc Hrun Hfile)
    as (_ & _ & actions & final & Hdoc).
  exists disk', (snd r), doc, actions, final.
  split; [exact Hrun|]. split; [exact Hfile | exact Hdoc].
Defined.


Lemma unknown_finger_type_witness :
  base_finger.__init__ true "quadfinger" false fresh_process
  = (Raise (ValueError "Invalid finger type"), fresh_process).
Proof.
  apply (@unknown_finger_type_fails_fast finger_types assets). reflexivity.
Defined.

Lemma asset_path_witness :
  exists self process',
    base_finger.__init__ true "fingerone" false fresh_process
    = (Ok self, process')
    /\ robot_properties_path self
       = "/opt/trifinger_simulation/robot_properties_fingers"%string
    /\ stdout process' = [local_copy_message]
    /\ finger_urdf_path self
       = "/opt/trifinger_simulation/robot_properties_fingers/urdf/finger.urdf"%string.
Proof.
  destruct (@asset_path_falls_back_to_local_copy finger_types assets
              true "fingerone" false fresh_process
              "fingerone" "finger.urdf" 1%Z eq_refl eq_refl eq_refl)
    as (self & process' & Hrun & Hpath & Hurdf).
  simpl in Hpath. destruct Hpath as [Hpath Hout].
  exists self, process'. split; [exact Hrun|]. split; [exact Hpath|].
  split; [exact Hout|]. rewrite Hurdf, Hpath. reflexivity.
Defined.

Lemma construct_then_delete_witness :
  exists self process',
    pybullet_client fresh_process = None
    /\ bind (base_finger.__init__ true "trifingerpro" true) __del__
            fresh_process
       = (Ok self, process')
    /\ base_finger.enable_simulation self = false
    /\ pybullet_client process' = None
    /\ length (link_names self) = 9.
Proof.
  destruct (@construct_then_delete_disconnects finger_types assets
              true "trifingerpro" true fresh_process
              "trifingerpro" "trifingerpro.urdf" 3%Z
              eq_refl eq_refl eq_refl eq_refl)
    as (self & process' & Hrun & Hflag & Hclient & Hlinks).
  exists self, process'. split; [reflexivity|].
  split; [exact Hrun|]. split; [exact Hflag|].
  split; [exact Hclient|]. now rewrite Hlinks.
Defined.

End OnTheReferenceModels.
